(** * tp6ingsoft3: the Gin/MongoDB back end of the to-do application

    A shallow embedding of [main.go]: the two normalisation helpers, the
    BSON filters and updates the handlers build, the two collections and
    the ten request handlers, followed by the properties of the
    handlers.

    Conventions of the embedding.
    - A Go [string] is a Rocq [string] (a sequence of bytes).  The
      library functions [strings.TrimSpace] and [strings.ToLower] work
      on Unicode text: the first trims every Unicode white space
      (U+0085 and U+00A0 among them), the second lower-cases the letters
      of every script.  They are an interface of the embedding, with one
      law: on a string of bytes below 128 they are the functions of the
      module [ASCII].  The handlers and their properties are stated and
      proved for any functions with this law, hence for Go's; what they
      do to a string with a byte from 128 on is left open.
    - [bson.M] is a finite map from field names to BSON values; a
      filter is a map of equalities and an update is the map under
      [$set].
    - A collection is the list of its documents in natural order, each
      held as the struct it decodes into: a time is stored as a BSON
      date, in whole milliseconds.  The driver is instrumented with a
      journal of the calls a handler issues, and each call can be made
      to fail by the environment, the way a lost connection makes the
      real driver return an error; a call that fails changes nothing. *)

From Stdlib Require Import Ascii NArith ZArith.
From stdpp Require Import gmap strings list fin_maps.

(** ** The two library functions on ASCII text *)

(** On a string of bytes below 128 Go's functions are these: white space
    is one of the six bytes ['\t'], ['\n'], ['\v'], ['\f'], ['\r'] and
    [' '], and the letters [A-Z] are the only ones with a lower-case
    form of their own. *)
Module ASCII.

Definition isASCII (s : string) : bool :=
  forallb (λ c, (N_of_ascii c <? 128)%N) (String.list_ascii_of_string s).

Definition isSpace (c : ascii) : bool :=
  let n := N_of_ascii c in
  ((9 <=? n) && (n <=? 13) || (n =? 32))%N.

Definition toLowerByte (c : ascii) : ascii :=
  let n := N_of_ascii c in
  if ((65 <=? n) && (n <=? 90))%N then ascii_of_N (n + 32) else c.

Fixpoint ToLower (s : string) : string :=
  match s with
  | EmptyString => EmptyString
  | String c r => String (toLowerByte c) (ToLower r)
  end.

Fixpoint TrimLeft (s : string) : string :=
  match s with
  | EmptyString => EmptyString
  | String c r => if isSpace c then TrimLeft r else s
  end.

Fixpoint TrimRight (s : string) : string :=
  match s with
  | EmptyString => EmptyString
  | String c r =>
      match TrimRight r with
      | EmptyString => if isSpace c then EmptyString else String c EmptyString
      | r' => String c r'
      end
  end.

Definition TrimSpace (s : string) : string := TrimRight (TrimLeft s).

(** A string that [TrimLeft] returns is empty or starts with a byte that
    is not white space. *)
Definition leftTrimmed (s : string) : Prop :=
  match s with
  | EmptyString => True
  | String c _ => isSpace c = false
  end.

(** A string of white space alone. *)
Fixpoint allSpace (s : string) : bool :=
  match s with
  | EmptyString => true
  | String c r => isSpace c && allSpace r
  end.

(** Whether the last byte of a string is white space. *)
Fixpoint endsWithSpace (s : string) : bool :=
  match s with
  | EmptyString => false
  | String c EmptyString => isSpace c
  | String _ r => endsWithSpace r
  end.

End ASCII.

(** ** Package [strings] *)

Module strings.

(** [strings.TrimSpace] and [strings.ToLower]: two functions on strings
    that do to ASCII text what the functions of [ASCII] do. *)
Class Lib : Type := {
  TrimSpace : string → string;
  ToLower : string → string;
  TrimSpace_ASCII (s : string) :
    ASCII.isASCII s = true → TrimSpace s = ASCII.TrimSpace s;
  ToLower_ASCII (s : string) :
    ASCII.isASCII s = true → ToLower s = ASCII.ToLower s
}.

(** The functions of [ASCII], taken for all strings: the library of a
    program that sees ASCII text only. *)
Definition forASCII : Lib :=
  {| TrimSpace := ASCII.TrimSpace;
     ToLower := ASCII.ToLower;
     TrimSpace_ASCII := λ _ _, eq_refl;
     ToLower_ASCII := λ _ _, eq_refl |}.

End strings.

(** [time.Time], as nanoseconds since the epoch, in UTC. *)
Definition Time : Type := Z.

(** ** Package [primitive]: object identifiers *)

Module primitive.

(** An [ObjectID] is a 12-byte value; it is held as the number its bytes
    spell in base 256, most significant byte first. *)
Definition ObjectID : Type := N.

Definition NilObjectID : ObjectID := 0%N.

Definition hexDigit (d : N) : ascii :=
  if (d <? 10)%N then ascii_of_N (48 + d) else ascii_of_N (87 + d).

Fixpoint hexOf (digits : nat) (n : N) (acc : string) : string :=
  match digits with
  | O => acc
  | S k => hexOf k (n / 16)%N (String (hexDigit (n mod 16)%N) acc)
  end.

(** [ObjectID.Hex]: the 24 lower-case hexadecimal digits of the 12 bytes. *)
Definition Hex (id : ObjectID) : string := hexOf 24 id "".

(** [fromHexChar] of [encoding/hex]: both cases of [a-f] are digits. *)
Definition fromHexChar (c : ascii) : option N :=
  let n := N_of_ascii c in
  if ((48 <=? n) && (n <=? 57))%N then Some (n - 48)%N
  else if ((97 <=? n) && (n <=? 102))%N then Some (n - 87)%N
  else if ((65 <=? n) && (n <=? 70))%N then Some (n - 55)%N
  else None.

Fixpoint decodeHex (s : string) (acc : N) : option N :=
  match s with
  | EmptyString => Some acc
  | String c r =>
      match fromHexChar c with
      | Some d => decodeHex r (16 * acc + d)%N
      | None => None
      end
  end.

(** [ObjectIDFromHex]: [None] stands for the error the driver returns when
    the string is not 24 characters long or holds a character that is not
    a hexadecimal digit. *)
Definition ObjectIDFromHex (s : string) : option ObjectID :=
  if bool_decide (String.length s = 24) then decodeHex s 0%N else None.

(** [primitive.DateTime], the BSON date: milliseconds since the epoch. *)
Definition DateTime : Type := Z.

(** [NewDateTimeFromTime]: the whole milliseconds of a time. *)
Definition NewDateTimeFromTime (t : Time) : DateTime := (t / 1000000)%Z.

(** [DateTime.Time] *)
Definition DateTime_Time (dt : DateTime) : Time := (dt * 1000000)%Z.

End primitive.

(** ** Package [bson] *)

Inductive Value : Type :=
| VString (s : string)
| VBool (b : bool)
| VObjectID (o : primitive.ObjectID)
| VDateTime (dt : primitive.DateTime).

#[global] Instance Value_eq_dec : EqDecision Value.
Proof. unfold primitive.ObjectID, primitive.DateTime. solve_decision. Defined.

Module bson.

(** [bson.M], a map from field names to values. *)
Abbreviation M := (gmap string Value).

(** A document matches an equality filter when it has every field of the
    filter, with the filter's value. *)
Definition matches (filter doc : M) : bool :=
  bool_decide (map_Forall (λ k v, doc !! k = Some v) filter).

End bson.

(** ** The entities *)

Record User : Type := mkUser {
  User_Email : string;
  User_Password : string
}.

Record Todo : Type := mkTodo {
  Todo_ID : primitive.ObjectID;
  Todo_Email : string;
  Todo_Title : string;
  Todo_Completed : bool;
  Todo_CreatedAt : Time
}.

Arguments mkTodo _%_N _ _ _ _%_Z.

Record TodoResponse : Type := mkTodoResponse {
  TodoResponse_ID : string;
  TodoResponse_Email : string;
  TodoResponse_Title : string;
  TodoResponse_Completed : bool;
  TodoResponse_CreatedAt : Time
}.

Arguments mkTodoResponse _ _ _ _ _%_Z.

Definition toTodoResponse (todo : Todo) : TodoResponse :=
  {| TodoResponse_ID := primitive.Hex (Todo_ID todo);
     TodoResponse_Email := Todo_Email todo;
     TodoResponse_Title := Todo_Title todo;
     TodoResponse_Completed := Todo_Completed todo;
     TodoResponse_CreatedAt := Todo_CreatedAt todo |}.

(** The zero [time.Time], the first instant of year 1. *)
Definition zeroTime : Time := (-62135596800000000000)%Z.

(** What the driver needs of a struct stored in a collection: its BSON
    form under the struct tags, the struct a document decodes into (a
    field the document lacks keeps its zero value), the effect of a
    [$set] update on it, and the identifier the driver gives a document
    that has none. *)
Class Document (A : Type) : Type := {
  marshal : A → bson.M;
  unmarshal : bson.M → A;
  applySet : bson.M → A → A;
  withID : primitive.ObjectID → A → A
}.

(** [User] has the tags [email] and [password]; its [_id] is not part of
    the struct. *)
#[global] Instance User_Document : Document User := {
  marshal u :=
    {[ "email" := VString (User_Email u);
       "password" := VString (User_Password u) ]};
  unmarshal m :=
    {| User_Email :=
         match m !! "email" with Some (VString s) => s | _ => "" end;
       User_Password :=
         match m !! "password" with Some (VString s) => s | _ => "" end |};
  applySet update u :=
    {| User_Email :=
         match update !! "email" with
         | Some (VString s) => s | _ => User_Email u end;
       User_Password :=
         match update !! "password" with
         | Some (VString s) => s | _ => User_Password u end |};
  withID _ u := u
}.

(** [Todo] has the tags [_id,omitempty], [email], [title], [completed] and
    [createdAt]; the time is written as a BSON date.  The store never
    lets an update change [_id]. *)
#[global] Instance Todo_Document : Document Todo := {
  marshal t :=
    {[ "_id" := VObjectID (Todo_ID t);
       "email" := VString (Todo_Email t);
       "title" := VString (Todo_Title t);
       "completed" := VBool (Todo_Completed t);
       "createdAt" :=
         VDateTime (primitive.NewDateTimeFromTime (Todo_CreatedAt t)) ]};
  unmarshal m :=
    {| Todo_ID :=
         match m !! "_id" with
         | Some (VObjectID id) => id | _ => primitive.NilObjectID end;
       Todo_Email :=
         match m !! "email" with Some (VString s) => s | _ => "" end;
       Todo_Title :=
         match m !! "title" with Some (VString s) => s | _ => "" end;
       Todo_Completed :=
         match m !! "completed" with Some (VBool b) => b | _ => false end;
       Todo_CreatedAt :=
         match m !! "createdAt" with
         | Some (VDateTime dt) => primitive.DateTime_Time dt | _ => zeroTime end |};
  applySet update t :=
    {| Todo_ID := Todo_ID t;
       Todo_Email :=
         match update !! "email" with
         | Some (VString s) => s | _ => Todo_Email t end;
       Todo_Title :=
         match update !! "title" with
         | Some (VString s) => s | _ => Todo_Title t end;
       Todo_Completed :=
         match update !! "completed" with
         | Some (VBool b) => b | _ => Todo_Completed t end;
       Todo_CreatedAt :=
         match update !! "createdAt" with
         | Some (VDateTime dt) => primitive.DateTime_Time dt
         | _ => Todo_CreatedAt t end |};
  withID fresh t :=
    if bool_decide (Todo_ID t = primitive.NilObjectID)
    then {| Todo_ID := fresh; Todo_Email := Todo_Email t;
            Todo_Title := Todo_Title t; Todo_Completed := Todo_Completed t;
            Todo_CreatedAt := Todo_CreatedAt t |}
    else t
}.

(** The [_id] of a document, when its struct carries one. *)
Definition docID {A} `{Document A} (doc : A) : option primitive.ObjectID :=
  match marshal doc !! "_id" with
  | Some (VObjectID id) => Some id
  | _ => None
  end.

(** ** The database and the driver *)

Record Database : Type := mkDatabase {
  users : list User;
  todos : list Todo
}.

(** A collection handle, as [db.Collection(name)] returns it. *)
Record Collection (A : Type) : Type := mkCollection {
  name : string;
  docs : Database → list A;
  store : list A → Database → Database
}.
Arguments name {A} _.
Arguments docs {A} _ _.
Arguments store {A} _ _ _.

Definition userCollection : Collection User :=
  {| name := "users";
     docs := users;
     store us d := {| users := us; todos := todos d |} |}.

Definition todoCollection : Collection Todo :=
  {| name := "todos";
     docs := todos;
     store ts d := {| users := users d; todos := ts |} |}.

(** The calls a handler can issue, with their arguments. *)
Inductive Call : Type :=
| CallFindOne (coll : string) (filter : bson.M)
| CallFind (coll : string) (filter : bson.M)
| CallAll (coll : string)
| CallInsertOne (coll : string) (doc : bson.M)
| CallUpdateByID (coll : string) (id : primitive.ObjectID) (update : bson.M)
| CallDeleteOne (coll : string) (filter : bson.M)
| CallDeleteMany (coll : string) (filter : bson.M).

Definition isWrite (c : Call) : bool :=
  match c with
  | CallFindOne _ _ | CallFind _ _ | CallAll _ => false
  | _ => true
  end.

(** The errors of the driver the handlers can meet. *)
Inductive error : Type :=
| ErrNoDocuments
| ErrDuplicateKey
| ErrConnection.

Inductive result (A : Type) : Type :=
| ok (a : A)
| err (e : error).
Arguments ok {A} a.
Arguments err {A} e.

(** What a request gets from outside the handler: whether the [n]-th call
    it issues (from 0) is lost, the clock and the identifier the driver
    generates for a new document. *)
Record Env : Type := mkEnv {
  outage : nat → bool;
  now : Time;
  NewObjectID : primitive.ObjectID
}.

Record Session : Type := mkSession {
  db : Database;
  journal : list Call
}.

Definition Driver (A : Type) : Type := Session → A * Session.

Definition ret {A} (a : A) : Driver A := λ s, (a, s).

Definition bind {A B} (m : Driver A) (k : A → Driver B) : Driver B :=
  λ s, let '(a, s') := m s in k a s'.

Notation "'let*' x := m 'in' k" := (bind m (λ x, k))
  (at level 10, x name, m at level 100, k at level 200, only parsing).

(** One call: it is written to the journal; when the environment loses
    it, the driver returns an error and the database is as before. *)
Definition call {A} (env : Env) (c : Call)
    (run : Database → result A * Database) : Driver (result A) :=
  λ s,
    let j := journal s ++ [c] in
    if outage env (length (journal s))
    then (err ErrConnection, {| db := db s; journal := j |})
    else let '(r, d) := run (db s) in (r, {| db := d; journal := j |}).

Section Operations.
Context {A : Type} `{Document A}.

Definition hits (filter : bson.M) (doc : A) : bool :=
  bson.matches filter (marshal doc).

(** The first document of the list that matches, updated. *)
Fixpoint updateFirst (filter update : bson.M) (l : list A) : list A :=
  match l with
  | [] => []
  | doc :: r =>
      if hits filter doc then applySet update doc :: r
      else doc :: updateFirst filter update r
  end.

(** The list without its first document that matches. *)
Fixpoint deleteFirst (filter : bson.M) (l : list A) : list A :=
  match l with
  | [] => []
  | doc :: r => if hits filter doc then r else doc :: deleteFirst filter r
  end.

(** [coll.FindOne(ctx, filter).Decode(&doc)] *)
Definition FindOne (coll : Collection A) (env : Env) (filter : bson.M)
    : Driver (result A) :=
  call env (CallFindOne (name coll) filter) (λ d,
    match List.find (hits filter) (docs coll d) with
    | Some doc => (ok doc, d)
    | None => (err ErrNoDocuments, d)
    end).

(** [coll.Find(ctx, filter)]; the cursor is the list of the matches. *)
Definition Find (coll : Collection A) (env : Env) (filter : bson.M)
    : Driver (result (list A)) :=
  call env (CallFind (name coll) filter) (λ d,
    (ok (List.filter (hits filter) (docs coll d)), d)).

(** [cursor.All(ctx, &docs)] *)
Definition All (coll : Collection A) (env : Env) (cursor : list A)
    : Driver (result (list A)) :=
  call env (CallAll (name coll)) (λ d, (ok cursor, d)).

(** [coll.InsertOne(ctx, doc)]: the driver fills an omitted [_id] and
    writes the document the struct marshals to, the store refuses an
    [_id] it already has, and the result is the [_id] of the new
    document.  The collection then holds what this document decodes
    into. *)
Definition InsertOne (coll : Collection A) (env : Env) (doc : A)
    : Driver (result primitive.ObjectID) :=
  let doc := withID (NewObjectID env) doc in
  let written := unmarshal (marshal doc) in
  call env (CallInsertOne (name coll) (marshal doc)) (λ d,
    match docID doc with
    | Some id =>
        if existsb (hits {[ "_id" := VObjectID id ]}) (docs coll d)
        then (err ErrDuplicateKey, d)
        else (ok id, store coll (docs coll d ++ [written]) d)
    | None => (ok (NewObjectID env), store coll (docs coll d ++ [written]) d)
    end).

(** [coll.UpdateByID(ctx, id, bson.M{"$set": update})]; no match is not an
    error. *)
Definition UpdateByID (coll : Collection A) (env : Env)
    (id : primitive.ObjectID) (update : bson.M) : Driver (result unit) :=
  call env (CallUpdateByID (name coll) id update) (λ d,
    (ok (), store coll
       (updateFirst {[ "_id" := VObjectID id ]} update (docs coll d)) d)).

(** [coll.DeleteOne(ctx, filter)]; no match is not an error. *)
Definition DeleteOne (coll : Collection A) (env : Env) (filter : bson.M)
    : Driver (result unit) :=
  call env (CallDeleteOne (name coll) filter) (λ d,
    (ok (), store coll (deleteFirst filter (docs coll d)) d)).

(** [coll.DeleteMany(ctx, filter)] *)
Definition DeleteMany (coll : Collection A) (env : Env) (filter : bson.M)
    : Driver (result unit) :=
  call env (CallDeleteMany (name coll) filter) (λ d,
    (ok (), store coll
       (List.filter (λ doc, negb (hits filter doc)) (docs coll d)) d)).

End Operations.

(** ** Package [http] and [gin] *)

Module http.
Definition StatusOK : N := 200.
Definition StatusCreated : N := 201.
Definition StatusBadRequest : N := 400.
Definition StatusUnauthorized : N := 401.
Definition StatusConflict : N := 409.
Definition StatusInternalServerError : N := 500.
End http.

(** The values the handlers put in a [gin.H]. *)
Inductive Any : Type :=
| AString (s : string)
| ATime (t : Time)
| AUsers (l : list User)
| ATodos (l : list TodoResponse)
| ATodo (t : TodoResponse).

Module gin.
Abbreviation H := (list (string * Any)).
End gin.

(** [c.JSON(code, obj)] *)
Record Response : Type := JSON {
  code : N;
  obj : gin.H
}.

(** ** Environments and databases of the examples *)

(** An environment in which no call is lost. *)
Definition calm (t : Time) (fresh : primitive.ObjectID) : Env :=
  {| outage := λ _, false; now := t; NewObjectID := fresh |}.

Arguments calm t%_Z fresh%_N.

(** An environment that loses the first call only. *)
Definition firstLost (t : Time) (fresh : primitive.ObjectID) : Env :=
  {| outage := λ n, bool_decide (n = 0); now := t; NewObjectID := fresh |}.

Arguments firstLost t%_Z fresh%_N.

(** An environment that loses the second call only. *)
Definition secondLost (t : Time) (fresh : primitive.ObjectID) : Env :=
  {| outage := λ n, bool_decide (n = 1); now := t; NewObjectID := fresh |}.

Arguments secondLost t%_Z fresh%_N.

Definition emptyDatabase : Database := {| users := []; todos := [] |}.

(** * The handlers of [main.go] *)

Section Backend.
Context {lib : strings.Lib}.

(** ** [normalizeEmail] and [normalizeText] *)

Definition normalizeEmail (email : string) : string :=
  strings.ToLower (strings.TrimSpace email).

Definition normalizeText (s : string) : string :=
  strings.TrimSpace s.

(** ** The handlers *)

(** In each handler [body] is what [c.BindJSON] decodes, [None] when it
    returns an error. *)

Definition registerUser (env : Env) (body : option User) : Driver Response :=
  match body with
  | None => ret (JSON http.StatusBadRequest [("error", AString "Datos inválidos")])
  | Some user =>
      let user := {| User_Email := normalizeEmail (User_Email user);
                     User_Password := normalizeText (User_Password user) |} in
      if bool_decide (User_Email user = "") || bool_decide (User_Password user = "")
      then ret (JSON http.StatusBadRequest
                  [("error", AString "Email y contraseña son requeridos")])
      else
        let* existing :=
          FindOne userCollection env {[ "email" := VString (User_Email user) ]} in
        match existing with
        | ok _ =>
            ret (JSON http.StatusConflict [("error", AString "Usuario ya existe")])
        | err _ =>
            let* res := InsertOne userCollection env user in
            match res with
            | err _ =>
                ret (JSON http.StatusInternalServerError
                       [("error", AString "Error al registrar")])
            | ok _ =>
                ret (JSON http.StatusCreated
                       [("message", AString "Usuario registrado con éxito")])
            end
        end
  end.

Definition healthHandler (env : Env) : Driver Response :=
  ret (JSON http.StatusOK [("status", AString "ok"); ("timestamp", ATime (now env))]).

Definition loginUser (env : Env) (body : option User) : Driver Response :=
  match body with
  | None => ret (JSON http.StatusBadRequest [("error", AString "Datos inválidos")])
  | Some user =>
      let user := {| User_Email := normalizeEmail (User_Email user);
                     User_Password := normalizeText (User_Password user) |} in
      if bool_decide (User_Email user = "") || bool_decide (User_Password user = "")
      then ret (JSON http.StatusBadRequest
                  [("error", AString "Email y contraseña son requeridos")])
      else
        let* found :=
          FindOne userCollection env {[ "email" := VString (User_Email user) ]} in
        match found with
        | err _ =>
            ret (JSON http.StatusUnauthorized
                   [("error", AString "Usuario no encontrado")])
        | ok found =>
            if bool_decide (User_Password found ≠ User_Password user)
            then ret (JSON http.StatusUnauthorized
                        [("error", AString "Password incorrecto")])
            else ret (JSON http.StatusOK [("message", AString "Login exitoso")])
        end
  end.

Definition listUsers (env : Env) : Driver Response :=
  let* cursor := Find userCollection env ∅ in
  match cursor with
  | err _ =>
      ret (JSON http.StatusInternalServerError
             [("error", AString "Error al obtener usuarios")])
  | ok cursor =>
      let* users := All userCollection env cursor in
      match users with
      | err _ =>
          ret (JSON http.StatusInternalServerError
                 [("error", AString "Error al procesar usuarios")])
      | ok users => ret (JSON http.StatusOK [("users", AUsers users)])
      end
  end.

Definition clearUsers (env : Env) : Driver Response :=
  let* res := DeleteMany userCollection env ∅ in
  match res with
  | err _ =>
      ret (JSON http.StatusInternalServerError
             [("error", AString "Error al limpiar usuarios")])
  | ok _ =>
      ret (JSON http.StatusOK
             [("message", AString "Todos los usuarios han sido eliminados")])
  end.

(** [email] is [c.Query("email")], the empty string when the query has no
    such parameter. *)
Definition listTodos (env : Env) (email : string) : Driver Response :=
  let filter : bson.M := ∅ in
  let filter :=
    if bool_decide (email ≠ "")
    then <[ "email" := VString (normalizeEmail email) ]> filter
    else filter in
  let* cursor := Find todoCollection env filter in
  match cursor with
  | err _ =>
      ret (JSON http.StatusInternalServerError
             [("error", AString "Error al obtener tareas")])
  | ok cursor =>
      let* todos := All todoCollection env cursor in
      match todos with
      | err _ =>
          ret (JSON http.StatusInternalServerError
                 [("error", AString "Error al procesar tareas")])
      | ok todos =>
          let todoResponses :=
            fold_left (λ acc todo, acc ++ [toTodoResponse todo]) todos [] in
          ret (JSON http.StatusOK [("todos", ATodos todoResponses)])
      end
  end.

Record CreateInput : Type := mkCreateInput {
  CreateInput_Email : string;
  CreateInput_Title : string
}.

Definition createTodo (env : Env) (body : option CreateInput) : Driver Response :=
  match body with
  | None => ret (JSON http.StatusBadRequest [("error", AString "Datos inválidos")])
  | Some input =>
      let input := {| CreateInput_Email := normalizeEmail (CreateInput_Email input);
                      CreateInput_Title := normalizeText (CreateInput_Title input) |} in
      if bool_decide (CreateInput_Email input = "")
         || bool_decide (CreateInput_Title input = "")
      then ret (JSON http.StatusBadRequest
                  [("error", AString "Email y título son requeridos")])
      else
        let todo := {| Todo_ID := primitive.NilObjectID;
                       Todo_Email := CreateInput_Email input;
                       Todo_Title := CreateInput_Title input;
                       Todo_Completed := false;
                       Todo_CreatedAt := now env |} in
        let* res := InsertOne todoCollection env todo in
        match res with
        | err _ =>
            ret (JSON http.StatusInternalServerError
                   [("error", AString "Error al crear tarea")])
        | ok insertedID =>
            let todo := {| Todo_ID := insertedID;
                           Todo_Email := Todo_Email todo;
                           Todo_Title := Todo_Title todo;
                           Todo_Completed := Todo_Completed todo;
                           Todo_CreatedAt := Todo_CreatedAt todo |} in
            ret (JSON http.StatusCreated [("todo", ATodo (toTodoResponse todo))])
        end
  end.

(** The two fields are pointers in the source: [None] is a field the
    body does not have. *)
Record UpdateInput : Type := mkUpdateInput {
  UpdateInput_Title : option string;
  UpdateInput_Completed : option bool
}.

Definition updateTodo (env : Env) (idHex : string) (body : option UpdateInput)
    : Driver Response :=
  match primitive.ObjectIDFromHex idHex with
  | None => ret (JSON http.StatusBadRequest [("error", AString "ID inválido")])
  | Some objID =>
      match body with
      | None =>
          ret (JSON http.StatusBadRequest [("error", AString "Datos inválidos")])
      | Some input =>
          (* what follows the [if input.Title != nil] block *)
          let rest (update : bson.M) : Driver Response :=
            let update :=
              match UpdateInput_Completed input with
              | Some completed => <[ "completed" := VBool completed ]> update
              | None => update
              end in
            if bool_decide (size update = 0)
            then ret (JSON http.StatusBadRequest
                        [("error", AString "Nada para actualizar")])
            else
              let* res := UpdateByID todoCollection env objID update in
              match res with
              | err _ =>
                  ret (JSON http.StatusInternalServerError
                         [("error", AString "Error al actualizar tarea")])
              | ok _ =>
                  let* updated :=
                    FindOne todoCollection env {[ "_id" := VObjectID objID ]} in
                  match updated with
                  | err _ =>
                      ret (JSON http.StatusInternalServerError
                             [("error", AString "Error al leer tarea actualizada")])
                  | ok updated =>
                      ret (JSON http.StatusOK
                             [("todo", ATodo (toTodoResponse updated))])
                  end
              end in
          let update : bson.M := ∅ in
          match UpdateInput_Title input with
          | Some title =>
              let title := normalizeText title in
              if bool_decide (title = "")
              then ret (JSON http.StatusBadRequest
                          [("error", AString "El título no puede estar vacío")])
              else rest (<[ "title" := VString title ]> update)
          | None => rest update
          end
      end
  end.

Definition deleteTodo (env : Env) (idHex : string) : Driver Response :=
  match primitive.ObjectIDFromHex idHex with
  | None => ret (JSON http.StatusBadRequest [("error", AString "ID inválido")])
  | Some objID =>
      let* res := DeleteOne todoCollection env {[ "_id" := VObjectID objID ]} in
      match res with
      | err _ =>
          ret (JSON http.StatusInternalServerError
                 [("error", AString "Error al eliminar tarea")])
      | ok _ => ret (JSON http.StatusOK [("message", AString "Tarea eliminada")])
      end
  end.

Definition clearTodos (env : Env) (email : string) : Driver Response :=
  let filter : bson.M := ∅ in
  let filter :=
    if bool_decide (email ≠ "")
    then <[ "email" := VString email ]> filter
    else filter in
  let* res := DeleteMany todoCollection env filter in
  match res with
  | err _ =>
      ret (JSON http.StatusInternalServerError
             [("error", AString "Error al limpiar tareas")])
  | ok _ => ret (JSON http.StatusOK [("message", AString "Tareas eliminadas")])
  end.

(** ** The routes of [main] *)

Inductive Request : Type :=
| POST_register (body : option User)
| POST_login (body : option User)
| GET_healthz
| GET_users
| DELETE_users
| GET_todos (email : string)
| POST_todos (body : option CreateInput)
| PUT_todos_id (id : string) (body : option UpdateInput)
| DELETE_todos_id (id : string)
| DELETE_todos (email : string).

Definition route (env : Env) (req : Request) : Driver Response :=
  match req with
  | POST_register body => registerUser env body
  | POST_login body => loginUser env body
  | GET_healthz => healthHandler env
  | GET_users => listUsers env
  | DELETE_users => clearUsers env
  | GET_todos email => listTodos env email
  | POST_todos body => createTodo env body
  | PUT_todos_id id body => updateTodo env id body
  | DELETE_todos_id id => deleteTodo env id
  | DELETE_todos email => clearTodos env email
  end.

(** A handler starts with an empty journal. *)
Definition start (d : Database) : Session := {| db := d; journal := [] |}.

(** One request served on a database: the response, and the session with
    the database after it and the calls it issued. *)
Definition serve (env : Env) (req : Request) (d : Database) : Response * Session :=
  route env req (start d).

(** A sequence of requests, each with its environment. *)
Fixpoint serveAll (reqs : list (Env * Request)) (d : Database) : Database :=
  match reqs with
  | [] => d
  | (env, req) :: rest => serveAll rest (db (serve env req d).2)
  end.

(** ** Invariants of the database *)

(** At most one user for an email. *)
Definition uniqueEmails (d : Database) : Prop := NoDup (User_Email <$> users d).

(** The store keeps [_id] unique in a collection. *)
Definition uniqueIDs (d : Database) : Prop := NoDup (Todo_ID <$> todos d).

(** ** What the handlers build, named for the statements *)

(** The filter [listTodos] builds from the query. *)
Definition listFilter (email : string) : bson.M :=
  if bool_decide (email ≠ "")
  then {[ "email" := VString (normalizeEmail email) ]}
  else ∅.

(** The filter [clearTodos] builds from the query. *)
Definition clearFilter (email : string) : bson.M :=
  if bool_decide (email ≠ "") then {[ "email" := VString email ]} else ∅.

(** The to-do [createTodo] builds and returns, with the identifier of the
    insert. *)
Definition newTodo (env : Env) (email title : string) : Todo :=
  {| Todo_ID := NewObjectID env;
     Todo_Email := normalizeEmail email;
     Todo_Title := normalizeText title;
     Todo_Completed := false;
     Todo_CreatedAt := now env |}.

(** The to-do the collection holds after the insert: the same, with the
    time of the request in whole milliseconds. *)
Definition insertedTodo (env : Env) (email title : string) : Todo :=
  {| Todo_ID := NewObjectID env;
     Todo_Email := normalizeEmail email;
     Todo_Title := normalizeText title;
     Todo_Completed := false;
     Todo_CreatedAt :=
       primitive.DateTime_Time (primitive.NewDateTimeFromTime (now env)) |}.

(** The update document [updateTodo] builds from a body. *)
Definition updateDocument (input : UpdateInput) : bson.M :=
  let update : bson.M :=
    match normalizeText <$> UpdateInput_Title input with
    | Some title => <[ "title" := VString title ]> ∅
    | None => ∅
    end in
  match UpdateInput_Completed input with
  | Some completed => <[ "completed" := VBool completed ]> update
  | None => update
  end.

(** What an update may change in a to-do: nothing in a to-do with another
    identifier, and in the addressed one neither the identifier, the
    owner nor the creation time, and not a field the body leaves out. *)
Definition framed (objID : option primitive.ObjectID) (body : option UpdateInput)
    (t t' : Todo) : Prop :=
  Todo_ID t' = Todo_ID t
  ∧ Todo_Email t' = Todo_Email t
  ∧ Todo_CreatedAt t' = Todo_CreatedAt t
  ∧ (body ≫= UpdateInput_Title = None → Todo_Title t' = Todo_Title t)
  ∧ (body ≫= UpdateInput_Completed = None → Todo_Completed t' = Todo_Completed t)
  ∧ (objID ≠ Some (Todo_ID t) → t' = t).

(** A response that reports an error: its object is the one key [error]
    with a message. *)
Definition isError (r : Response) : Prop :=
  ∃ msg, obj r = [("error", AString msg)].

(** The stored users and to-dos a handler can have written: the fields
    are not empty, and they are what the normalisation returns for some
    input. *)
Definition validUser (u : User) : Prop :=
  User_Email u ≠ "" ∧ (∃ E, User_Email u = normalizeEmail E)
  ∧ User_Password u ≠ "" ∧ (∃ P, User_Password u = normalizeText P).

Definition validTodo (t : Todo) : Prop :=
  Todo_Email t ≠ "" ∧ (∃ E, Todo_Email t = normalizeEmail E)
  ∧ Todo_Title t ≠ "" ∧ (∃ T, Todo_Title t = normalizeText T).

(** The requests that only read. *)
Definition readOnly (req : Request) : bool :=
  match req with
  | POST_login _ | GET_healthz | GET_users | GET_todos _ => true
  | _ => false
  end.

(** Sample data. *)
Definition alice : User := mkUser "a@b.com" "pw1".

Definition house : Database :=
  {| users := [alice];
     todos := [mkTodo 3 "c@d.com" "walk" false 5000000;
               mkTodo 9 "a@b.com" "buy milk" false 7000000] |}.

End Backend.

(** * The library functions on ASCII text *)

Section StringFacts.
Import ASCII.

Lemma isSpace_toLowerByte c : isSpace (toLowerByte c) = isSpace c.
Proof. by destruct c as [[] [] [] [] [] [] [] []]. Qed.

Lemma toLowerByte_idem c : toLowerByte (toLowerByte c) = toLowerByte c.
Proof. by destruct c as [[] [] [] [] [] [] [] []]. Qed.

Lemma ToLower_idem s : ToLower (ToLower s) = ToLower s.
Proof. induction s as [|c r IH]; simpl; [done|]. by rewrite toLowerByte_idem, IH. Qed.

Lemma TrimLeft_ToLower s : TrimLeft (ToLower s) = ToLower (TrimLeft s).
Proof.
  induction s as [|c r IH]; simpl; [done|].
  rewrite isSpace_toLowerByte. by destruct (isSpace c).
Qed.

Lemma TrimRight_ToLower s : TrimRight (ToLower s) = ToLower (TrimRight s).
Proof.
  induction s as [|c r IH]; simpl; [done|].
  rewrite IH, isSpace_toLowerByte.
  destruct (TrimRight r); simpl; [by destruct (isSpace c)|done].
Qed.

Lemma TrimSpace_ToLower s : TrimSpace (ToLower s) = ToLower (TrimSpace s).
Proof. unfold TrimSpace. by rewrite TrimLeft_ToLower, TrimRight_ToLower. Qed.

Lemma TrimLeft_leftTrimmed s : leftTrimmed (TrimLeft s).
Proof.
  induction s as [|c r IH]; simpl; [done|].
  by destruct (isSpace c) eqn:Hc.
Qed.

Lemma TrimLeft_id s : leftTrimmed s → TrimLeft s = s.
Proof. destruct s as [|c r]; simpl; [done|]. by intros ->. Qed.

Lemma TrimRight_leftTrimmed s : leftTrimmed s → leftTrimmed (TrimRight s).
Proof.
  destruct s as [|c r]; simpl; [done|]. intros Hc.
  rewrite Hc. by destruct (TrimRight r).
Qed.

Lemma TrimRight_idem s : TrimRight (TrimRight s) = TrimRight s.
Proof.
  induction s as [|c r IH]; simpl; [done|].
  destruct (TrimRight r) as [|c' r'] eqn:Hr.
  - destruct (isSpace c) eqn:Hc; simpl; [done|]. by rewrite Hc.
  - change (TrimRight (String c (String c' r'))) with
      (match TrimRight (String c' r') with
       | EmptyString => if isSpace c then EmptyString else String c EmptyString
       | r'' => String c r''
       end).
    by rewrite IH.
Qed.

Lemma TrimSpace_idem s : TrimSpace (TrimSpace s) = TrimSpace s.
Proof.
  unfold TrimSpace.
  rewrite (TrimLeft_id (TrimRight _)), TrimRight_idem; [done|].
  apply TrimRight_leftTrimmed, TrimLeft_leftTrimmed.
Qed.

End StringFacts.

Section TrimFacts.
Import ASCII.

Lemma TrimLeft_allSpace s : allSpace s = true → TrimLeft s = "".
Proof.
  induction s as [|c r IH]; simpl; [done|].
  intros [Hc Hr]%andb_true_iff. rewrite Hc. by apply IH.
Qed.

Lemma TrimRight_allSpace s : allSpace s = true → TrimRight s = "".
Proof.
  induction s as [|c r IH]; simpl; [done|].
  intros [Hc Hr]%andb_true_iff. by rewrite IH, Hc.
Qed.

Lemma TrimLeft_app_l pre s : allSpace pre = true → TrimLeft (pre +:+ s) = TrimLeft s.
Proof.
  induction pre as [|c r IH]; simpl; [done|].
  intros [Hc Hr]%andb_true_iff. rewrite Hc. by apply IH.
Qed.

Lemma TrimRight_app_r s post :
  allSpace post = true → TrimRight (s +:+ post) = TrimRight s.
Proof.
  intros Hpost. induction s as [|c r IH]; simpl.
  - by apply TrimRight_allSpace.
  - by rewrite IH.
Qed.

Lemma TrimSpace_app_r s post :
  allSpace post = true → TrimSpace (s +:+ post) = TrimSpace s.
Proof.
  intros Hpost. unfold TrimSpace. induction s as [|c r IH]; simpl.
  - by rewrite TrimLeft_allSpace.
  - destruct (isSpace c); [done|].
    by apply (TrimRight_app_r (String c r)).
Qed.

Lemma TrimLeft_split s :
  ∃ pre, allSpace pre = true ∧ s = pre +:+ TrimLeft s.
Proof.
  induction s as [|c r (pre & Hpre & IH)]; simpl; [by exists ""|].
  destruct (isSpace c) eqn:Hc; [|by exists ""].
  exists (String c pre). simpl. rewrite Hc, Hpre. split; [done|].
  change (String c r = String c (pre +:+ ASCII.TrimLeft r)). by f_equal.
Qed.

Lemma TrimRight_split s :
  ∃ post, allSpace post = true ∧ s = TrimRight s +:+ post.
Proof.
  induction s as [|c r (post & Hpost & IH)]; simpl; [by exists ""|].
  destruct (TrimRight r) as [|c' r'] eqn:Hr.
  - simpl in IH. subst r. destruct (isSpace c) eqn:Hc.
    + exists (String c post). simpl. by rewrite Hc, Hpost.
    + by exists post.
  - exists post. split; [done|]. simpl. by rewrite IH at 1.
Qed.

Lemma TrimRight_endsWithSpace s : endsWithSpace (TrimRight s) = false.
Proof.
  induction s as [|c r IH]; simpl; [done|].
  destruct (TrimRight r) as [|c' r'] eqn:Hr; [by destruct (isSpace c) eqn:Hc|].
  exact IH.
Qed.

End TrimFacts.


Section ASCIIFacts.
Import ASCII.

Lemma isASCII_cons c r :
  isASCII (String c r) = (N_of_ascii c <? 128)%N && isASCII r.
Proof. done. Qed.

Lemma isASCII_app s t : isASCII (s +:+ t) = isASCII s && isASCII t.
Proof.
  induction s as [|c r IH]; [done|].
  change (String c r +:+ t) with (String c (r +:+ t)).
  by rewrite !isASCII_cons, IH, andb_assoc.
Qed.

Lemma isSpace_isASCII c : isSpace c = true → (N_of_ascii c <? 128)%N = true.
Proof. by destruct c as [[] [] [] [] [] [] [] []]. Qed.

Lemma allSpace_isASCII s : allSpace s = true → isASCII s = true.
Proof.
  induction s as [|c r IH]; [done|]. simpl allSpace.
  intros [Hc Hr]%andb_true_iff.
  by rewrite isASCII_cons, (isSpace_isASCII c Hc), IH.
Qed.

Lemma toLowerByte_isASCII c :
  (N_of_ascii (toLowerByte c) <? 128)%N = (N_of_ascii c <? 128)%N.
Proof. by destruct c as [[] [] [] [] [] [] [] []]. Qed.

Lemma isASCII_ToLower s : isASCII (ToLower s) = isASCII s.
Proof.
  induction s as [|c r IH]; [done|]. simpl ToLower.
  by rewrite !isASCII_cons, toLowerByte_isASCII, IH.
Qed.

Lemma isASCII_TrimLeft s : isASCII s = true → isASCII (TrimLeft s) = true.
Proof.
  induction s as [|c r IH]; [done|]. simpl TrimLeft.
  destruct (isSpace c); [|done].
  rewrite isASCII_cons. intros [_ Hr]%andb_true_iff. by apply IH.
Qed.

Lemma isASCII_TrimRight s : isASCII s = true → isASCII (TrimRight s) = true.
Proof.
  induction s as [|c r IH]; [done|]. simpl TrimRight.
  rewrite isASCII_cons. intros [Hc Hr]%andb_true_iff.
  specialize (IH Hr).
  destruct (TrimRight r) as [|c' r'].
  - destruct (isSpace c); [done|]. by rewrite isASCII_cons, Hc.
  - by rewrite isASCII_cons, Hc, IH.
Qed.

Lemma isASCII_TrimSpace s : isASCII s = true → isASCII (TrimSpace s) = true.
Proof. intros Hs. by apply isASCII_TrimRight, isASCII_TrimLeft. Qed.

End ASCIIFacts.

(** * Properties of the handlers *)

Section Properties.
Context {lib : strings.Lib}.

(** ** The normal forms of ASCII text *)

Lemma ToLower_empty : strings.ToLower "" = "".
Proof. by rewrite strings.ToLower_ASCII. Qed.

Lemma normalizeText_ASCII s :
  ASCII.isASCII s = true → normalizeText s = ASCII.TrimSpace s.
Proof. apply strings.TrimSpace_ASCII. Qed.

Lemma normalizeEmail_ASCII s :
  ASCII.isASCII s = true → normalizeEmail s = ASCII.ToLower (ASCII.TrimSpace s).
Proof.
  intros Hs. unfold normalizeEmail.
  rewrite strings.TrimSpace_ASCII by done.
  by rewrite strings.ToLower_ASCII by by apply isASCII_TrimSpace.
Qed.

(** ** Filters *)

Lemma matches_empty doc : bson.matches ∅ doc = true.
Proof. apply bool_decide_eq_true, map_Forall_empty. Qed.

Lemma matches_singleton k v doc :
  bson.matches {[ k := v ]} doc = bool_decide (doc !! k = Some v).
Proof.
  unfold bson.matches. apply bool_decide_ext.
  by rewrite map_Forall_singleton.
Qed.

Lemma hits_user_email e (u : User) :
  hits {[ "email" := VString e ]} u = bool_decide (User_Email u = e).
Proof.
  unfold hits. rewrite matches_singleton.
  apply bool_decide_ext. change (marshal u !! "email") with (Some (VString (User_Email u))).
  split; [by intros [= ->]|by intros ->].
Qed.

Lemma hits_todo_email e (t : Todo) :
  hits {[ "email" := VString e ]} t = bool_decide (Todo_Email t = e).
Proof.
  unfold hits. rewrite matches_singleton.
  apply bool_decide_ext. change (marshal t !! "email") with (Some (VString (Todo_Email t))).
  split; [by intros [= ->]|by intros ->].
Qed.

Lemma hits_todo_id id (t : Todo) :
  hits {[ "_id" := VObjectID id ]} t = bool_decide (Todo_ID t = id).
Proof.
  unfold hits. rewrite matches_singleton.
  apply bool_decide_ext. change (marshal t !! "_id") with (Some (VObjectID (Todo_ID t))).
  split; [by intros [= ->]|by intros ->].
Qed.

Lemma hits_empty {A} `{Document A} (doc : A) : hits ∅ doc = true.
Proof. apply matches_empty. Qed.

(** ** The driver *)

Lemma call_up {A} env c (run : Database → result A * Database) s :
  outage env (length (journal s)) = false →
  call env c run s
  = ((run (db s)).1, {| db := (run (db s)).2; journal := journal s ++ [c] |}).
Proof. unfold call. intros ->. by destruct (run (db s)). Qed.

(** Searching a list by a key no two of its elements share. *)
Section FindByKey.
Context {A K : Type} `{EqDecision K} (key : A → K).

Lemma find_key_None (k : K) (l : list A) :
  List.find (λ x, bool_decide (key x = k)) l = None ↔ ∀ x, x ∈ l → key x ≠ k.
Proof.
  induction l as [|a l IH]; simpl.
  - split; [|done]. intros _ x Hx. by apply elem_of_nil in Hx.
  - case_bool_decide as Ha.
    + split; [done|]. intros Hl. destruct (Hl a); [left|done].
    + rewrite IH. split.
      * intros Hl x [->|Hx]%elem_of_cons; auto.
      * intros Hl x Hx. apply Hl. by right.
Qed.

Lemma find_key_Some (k : K) (l : list A) (x : A) :
  List.find (λ x, bool_decide (key x = k)) l = Some x → x ∈ l ∧ key x = k.
Proof.
  induction l as [|a l IH]; simpl; [done|].
  case_bool_decide as Ha.
  - intros [= <-]. split; [left|done].
  - intros [Hx Hk]%IH. split; [by right|done].
Qed.

Lemma find_key_NoDup (k : K) (l : list A) (x : A) :
  NoDup (key <$> l) → x ∈ l → key x = k →
  List.find (λ x, bool_decide (key x = k)) l = Some x.
Proof.
  induction l as [|a l IH]; simpl.
  - intros _ Hx. by apply elem_of_nil in Hx.
  - intros [Ha Hl]%NoDup_cons [->|Hx]%elem_of_cons Hk.
    + by rewrite bool_decide_eq_true_2.
    + rewrite bool_decide_eq_false_2; [by apply IH|].
      intros Hak. apply Ha. rewrite Hak, <- Hk.
      by apply list_elem_of_fmap_2.
Qed.

End FindByKey.

Lemma find_hits_user_email e (l : list User) :
  List.find (hits {[ "email" := VString e ]}) l
  = List.find (λ u, bool_decide (User_Email u = e)) l.
Proof.
  induction l as [|a l IH]; simpl; [done|].
  by rewrite hits_user_email, IH.
Qed.

Lemma find_hits_todo_id id (l : list Todo) :
  List.find (hits {[ "_id" := VObjectID id ]}) l
  = List.find (λ t, bool_decide (Todo_ID t = id)) l.
Proof.
  induction l as [|a l IH]; simpl; [done|].
  by rewrite hits_todo_id, IH.
Qed.

(** ** Login *)

(** What [loginUser] does with a body that passes the validation, when
    the look-up is not lost. *)
Lemma loginUser_valid env d E P :
  normalizeEmail E ≠ "" → normalizeText P ≠ "" → outage env 0 = false →
  loginUser env (Some (mkUser E P)) (start d)
  = (match List.find (λ u, bool_decide (User_Email u = normalizeEmail E)) (users d) with
     | None =>
         JSON http.StatusUnauthorized [("error", AString "Usuario no encontrado")]
     | Some found =>
         if bool_decide (User_Password found ≠ normalizeText P)
         then JSON http.StatusUnauthorized [("error", AString "Password incorrecto")]
         else JSON http.StatusOK [("message", AString "Login exitoso")]
     end,
     {| db := d;
        journal := [CallFindOne "users" {[ "email" := VString (normalizeEmail E) ]}] |}).
Proof.
  intros HE HP Hup. unfold loginUser; simpl.
  rewrite !bool_decide_eq_false_2 by done. simpl.
  unfold bind, FindOne. rewrite call_up by done. simpl.
  rewrite find_hits_user_email.
  destruct (List.find _ (users d)) as [found|]; simpl; [|done].
  by case_bool_decide.
Qed.

Lemma loginUser_blank env d E P :
  normalizeEmail E = "" ∨ normalizeText P = "" →
  loginUser env (Some (mkUser E P)) (start d)
  = (JSON http.StatusBadRequest
       [("error", AString "Email y contraseña son requeridos")], start d).
Proof.
  intros Hblank. unfold loginUser; simpl.
  destruct Hblank as [-> | ->]; simpl; [done|].
  by rewrite orb_true_r.
Qed.


(** ** Registration *)

Lemma FindOne_user_start env d e :
  FindOne userCollection env {[ "email" := VString e ]} (start d)
  = (if outage env 0 then err ErrConnection
     else match List.find (λ u, bool_decide (User_Email u = e)) (users d) with
          | Some u => ok u
          | None => err ErrNoDocuments
          end,
     {| db := d; journal := [CallFindOne "users" {[ "email" := VString e ]}] |}).
Proof.
  unfold FindOne, call, start; simpl. rewrite find_hits_user_email.
  destruct (outage env 0); [done|]. by destruct (List.find _ _).
Qed.

(** What [registerUser] does with a body that passes the validation. *)
Lemma registerUser_valid env d E P :
  normalizeEmail E ≠ "" → normalizeText P ≠ "" →
  let user := mkUser (normalizeEmail E) (normalizeText P) in
  let lookup := CallFindOne "users" {[ "email" := VString (normalizeEmail E) ]} in
  let insert := CallInsertOne "users" (marshal user) in
  registerUser env (Some (mkUser E P)) (start d)
  = match (FindOne userCollection env
             {[ "email" := VString (normalizeEmail E) ]} (start d)).1 with
    | ok _ =>
        (JSON http.StatusConflict [("error", AString "Usuario ya existe")],
         {| db := d; journal := [lookup] |})
    | err _ =>
        if outage env 1
        then (JSON http.StatusInternalServerError
                [("error", AString "Error al registrar")],
              {| db := d; journal := [lookup; insert] |})
        else (JSON http.StatusCreated
                [("message", AString "Usuario registrado con éxito")],
              {| db := {| users := users d ++ [user]; todos := todos d |};
                 journal := [lookup; insert] |})
    end.
Proof.
  intros HE HP user lookup insert. unfold registerUser; simpl.
  rewrite !bool_decide_eq_false_2 by done. simpl.
  unfold bind. rewrite FindOne_user_start. simpl.
  assert (
    (let '(a, s') := InsertOne userCollection env user
                       {| db := d; journal := [lookup] |} in
     match a with
     | ok _ => ret (JSON http.StatusCreated
                      [("message", AString "Usuario registrado con éxito")])
     | err _ => ret (JSON http.StatusInternalServerError
                       [("error", AString "Error al registrar")])
     end s')
    = if outage env 1
      then (JSON http.StatusInternalServerError
              [("error", AString "Error al registrar")],
            {| db := d; journal := [lookup; insert] |})
      else (JSON http.StatusCreated
              [("message", AString "Usuario registrado con éxito")],
            {| db := {| users := users d ++ [user]; todos := todos d |};
               journal := [lookup; insert] |})) as Hins.
  { unfold InsertOne, call; simpl. by destruct (outage env 1). }
  destruct (outage env 0); [by apply Hins|].
  destruct (List.find _ (users d)); [done|by apply Hins].
Qed.

Lemma registerUser_blank env d E P :
  normalizeEmail E = "" ∨ normalizeText P = "" →
  registerUser env (Some (mkUser E P)) (start d)
  = (JSON http.StatusBadRequest
       [("error", AString "Email y contraseña son requeridos")], start d).
Proof.
  intros Hblank. unfold registerUser; simpl.
  destruct Hblank as [-> | ->]; simpl; [done|].
  by rewrite orb_true_r.
Qed.

(** The users after a registration: the users before, with the new user
    at the end when the body passes the validation and the look-up gives
    no user. *)
Lemma registerUser_users env d body :
  let d' := db (registerUser env body (start d)).2 in
  todos d' = todos d
  ∧ (users d' = users d
     ∨ ∃ E P, body = Some (mkUser E P)
         ∧ normalizeEmail E ≠ "" ∧ normalizeText P ≠ ""
         ∧ (outage env 0 = true
            ∨ ∀ u, u ∈ users d → User_Email u ≠ normalizeEmail E)
         ∧ users d' = users d ++ [mkUser (normalizeEmail E) (normalizeText P)]).
Proof.
  destruct body as [[E P]|]; [|by split; [|left]].
  destruct (decide (normalizeEmail E = "")) as [HE|HE];
    [cbv zeta; rewrite registerUser_blank by auto; by split; [|left]|].
  destruct (decide (normalizeText P = "")) as [HP|HP];
    [cbv zeta; rewrite registerUser_blank by auto; by split; [|left]|].
  cbv zeta. rewrite registerUser_valid by done.
  rewrite FindOne_user_start. simpl.
  destruct (outage env 0) eqn:H0.
  - destruct (outage env 1); simpl; (split; [done|]); [by left|].
    right. exists E, P. split_and!; auto.
  - destruct (List.find _ (users d)) eqn:Hfind; simpl; [by split; [|left]|].
    destruct (outage env 1); simpl; (split; [done|]); [by left|].
    right. exists E, P. rewrite find_key_None in Hfind. split_and!; auto.
Qed.

(** ** The other handlers, call by call *)

Lemma loginUser_db env body d : db (loginUser env body (start d)).2 = d.
Proof.
  destruct body as [[E P]|]; [|done].
  destruct (decide (normalizeEmail E = "")) as [HE|HE];
    [by rewrite loginUser_blank by auto|].
  destruct (decide (normalizeText P = "")) as [HP|HP];
    [by rewrite loginUser_blank by auto|].
  unfold loginUser; simpl. rewrite !bool_decide_eq_false_2 by done. simpl.
  unfold bind. rewrite FindOne_user_start.
  destruct (outage env 0); [done|].
  destruct (List.find _ (users d)); [|done]. by case_bool_decide.
Qed.

Lemma listUsers_db env d : db (listUsers env (start d)).2 = d.
Proof.
  unfold listUsers, bind, Find, All, call; simpl.
  destruct (outage env 0); [done|]. simpl. by destruct (outage env 1).
Qed.

Lemma filter_none {A} (f : A → bool) (l : list A) :
  (∀ x, f x = false) → List.filter f l = [].
Proof. intros Hf. induction l as [|a l IH]; simpl; [done|]. by rewrite Hf. Qed.

Lemma clearUsers_db env d :
  db (clearUsers env (start d)).2
  = if outage env 0 then d else {| users := []; todos := todos d |}.
Proof.
  unfold clearUsers, bind, DeleteMany, call; simpl.
  destruct (outage env 0); [done|]. simpl.
  rewrite filter_none; [done|]. intros u. by rewrite hits_empty.
Qed.

Lemma fold_left_snoc_map {A B} (f : A → B) (l : list A) (acc : list B) :
  fold_left (λ acc x, acc ++ [f x]) l acc = acc ++ (f <$> l).
Proof.
  revert acc. induction l as [|a l IH]; intros acc; simpl.
  - by rewrite app_nil_r.
  - by rewrite IH, <- app_assoc.
Qed.

Lemma listTodos_up env d email :
  outage env 0 = false → outage env 1 = false →
  listTodos env email (start d)
  = (JSON http.StatusOK
       [("todos",
         ATodos (toTodoResponse <$> List.filter (hits (listFilter email)) (todos d)))],
     {| db := d;
        journal := [CallFind "todos" (listFilter email); CallAll "todos"] |}).
Proof.
  intros H0 H1. unfold listTodos, listFilter, bind, Find, All, call; simpl.
  rewrite H0; simpl. rewrite H1; simpl.
  rewrite fold_left_snoc_map. simpl.
  case_bool_decide; by rewrite ?insert_empty.
Qed.

Lemma listTodos_db env d email : db (listTodos env email (start d)).2 = d.
Proof.
  unfold listTodos, bind, Find, All, call; simpl.
  destruct (outage env 0); [done|]. simpl. by destruct (outage env 1).
Qed.

Lemma existsb_hits_todo_id id (l : list Todo) :
  existsb (hits {[ "_id" := VObjectID id ]}) l
  = existsb (λ t, bool_decide (Todo_ID t = id)) l.
Proof.
  induction l as [|a l IH]; simpl; [done|].
  by rewrite hits_todo_id, IH.
Qed.

(** A stored to-do read back: the time has lost what is below the
    millisecond, the other fields are as written. *)
Lemma unmarshal_marshal_todo (t : Todo) :
  unmarshal (marshal t)
  = {| Todo_ID := Todo_ID t;
       Todo_Email := Todo_Email t;
       Todo_Title := Todo_Title t;
       Todo_Completed := Todo_Completed t;
       Todo_CreatedAt :=
         primitive.DateTime_Time
           (primitive.NewDateTimeFromTime (Todo_CreatedAt t)) |}.
Proof. by destruct t. Qed.

Lemma unmarshal_marshal_user (u : User) : unmarshal (marshal u) = u.
Proof. by destruct u. Qed.

Lemma createTodo_valid env d E T :
  normalizeEmail E ≠ "" → normalizeText T ≠ "" →
  let todo := newTodo env E T in
  let insert := CallInsertOne "todos" (marshal todo) in
  createTodo env (Some (mkCreateInput E T)) (start d)
  = if outage env 0
       || existsb (λ t, bool_decide (Todo_ID t = NewObjectID env)) (todos d)
    then (JSON http.StatusInternalServerError
            [("error", AString "Error al crear tarea")],
          {| db := d; journal := [insert] |})
    else (JSON http.StatusCreated [("todo", ATodo (toTodoResponse todo))],
          {| db := {| users := users d;
                      todos := todos d ++ [insertedTodo env E T] |};
             journal := [insert] |}).
Proof.
  intros HE HT todo insert. unfold createTodo; simpl.
  rewrite !bool_decide_eq_false_2 by done. simpl.
  unfold bind, InsertOne, call. cbv zeta. rewrite unmarshal_marshal_todo. simpl.
  destruct (outage env 0); [done|]. simpl.
  change (docID _) with (Some (NewObjectID env)). cbv iota beta.
  rewrite existsb_hits_todo_id.
  by destruct (existsb _ (todos d)).
Qed.

Lemma createTodo_blank env d E T :
  normalizeEmail E = "" ∨ normalizeText T = "" →
  createTodo env (Some (mkCreateInput E T)) (start d)
  = (JSON http.StatusBadRequest
       [("error", AString "Email y título son requeridos")], start d).
Proof.
  intros Hblank. unfold createTodo; simpl.
  destruct Hblank as [-> | ->]; simpl; [done|].
  by rewrite orb_true_r.
Qed.

Lemma updateDocument_size input :
  size (updateDocument input) = 0
  ↔ UpdateInput_Title input = None ∧ UpdateInput_Completed input = None.
Proof.
  unfold updateDocument. rewrite map_size_empty_iff.
  destruct input as [[title|] [completed|]]; simpl; split;
    try done; try (by intros []);
    try (intros Hempty; by apply insert_non_empty in Hempty).
Qed.

Lemma updateDocument_title input :
  updateDocument input !! "title"
  = VString <$> (normalizeText <$> UpdateInput_Title input).
Proof. by destruct input as [[title|] [completed|]]. Qed.

Lemma updateDocument_completed input :
  updateDocument input !! "completed" = VBool <$> UpdateInput_Completed input.
Proof. by destruct input as [[title|] [completed|]]. Qed.

Lemma updateDocument_other input k :
  k ≠ "title" → k ≠ "completed" → updateDocument input !! k = None.
Proof.
  intros Ht Hc. unfold updateDocument.
  destruct input as [[title|] [completed|]]; simpl;
    by rewrite ?lookup_insert_ne, ?lookup_empty by done.
Qed.

Lemma updateTodo_valid env d idHex objID input :
  primitive.ObjectIDFromHex idHex = Some objID →
  normalizeText <$> UpdateInput_Title input ≠ Some "" →
  UpdateInput_Title input ≠ None ∨ UpdateInput_Completed input ≠ None →
  let update := updateDocument input in
  let write := CallUpdateByID "todos" objID update in
  let read := CallFindOne "todos" {[ "_id" := VObjectID objID ]} in
  let d' := {| users := users d;
               todos := updateFirst {[ "_id" := VObjectID objID ]} update (todos d) |} in
  let unread := JSON http.StatusInternalServerError
                  [("error", AString "Error al leer tarea actualizada")] in
  updateTodo env idHex (Some input) (start d)
  = if outage env 0
    then (JSON http.StatusInternalServerError
            [("error", AString "Error al actualizar tarea")],
          {| db := d; journal := [write] |})
    else if outage env 1
    then (unread, {| db := d'; journal := [write; read] |})
    else (match List.find (λ t, bool_decide (Todo_ID t = objID)) (todos d') with
          | Some updated =>
              JSON http.StatusOK [("todo", ATodo (toTodoResponse updated))]
          | None => unread
          end, {| db := d'; journal := [write; read] |}).
Proof.
  intros Hid Htitle Hsome update write read d' unread.
  assert (size update ≠ 0) as Hsize.
  { unfold update. rewrite updateDocument_size. intros []. by destruct Hsome. }
  subst write read d' unread. revert Hsize. subst update.
  unfold updateTodo, updateDocument. rewrite Hid.
  destruct (UpdateInput_Title input) as [title|]; simpl in *.
  - rewrite (bool_decide_eq_false_2 (normalizeText title = "")) by congruence.
    intros Hsize. rewrite bool_decide_eq_false_2 by done.
    unfold bind, UpdateByID, FindOne, call; simpl.
    destruct (outage env 0); [done|]. simpl.
    destruct (outage env 1); [done|]. simpl.
    rewrite find_hits_todo_id. by destruct (List.find _ _).
  - intros Hsize. rewrite bool_decide_eq_false_2 by done.
    unfold bind, UpdateByID, FindOne, call; simpl.
    destruct (outage env 0); [done|]. simpl.
    destruct (outage env 1); [done|]. simpl.
    rewrite find_hits_todo_id. by destruct (List.find _ _).
Qed.

Lemma deleteTodo_valid env d idHex objID :
  primitive.ObjectIDFromHex idHex = Some objID →
  let filter : bson.M := {[ "_id" := VObjectID objID ]} in
  deleteTodo env idHex (start d)
  = if outage env 0
    then (JSON http.StatusInternalServerError
            [("error", AString "Error al eliminar tarea")],
          {| db := d; journal := [CallDeleteOne "todos" filter] |})
    else (JSON http.StatusOK [("message", AString "Tarea eliminada")],
          {| db := {| users := users d; todos := deleteFirst filter (todos d) |};
             journal := [CallDeleteOne "todos" filter] |}).
Proof.
  intros Hid filter. unfold deleteTodo. rewrite Hid.
  unfold bind, DeleteOne, call; simpl. by destruct (outage env 0).
Qed.

Lemma clearTodos_eq env d email :
  clearTodos env email (start d)
  = if outage env 0
    then (JSON http.StatusInternalServerError
            [("error", AString "Error al limpiar tareas")],
          {| db := d; journal := [CallDeleteMany "todos" (clearFilter email)] |})
    else (JSON http.StatusOK [("message", AString "Tareas eliminadas")],
          {| db := {| users := users d;
                      todos := List.filter
                                 (λ t, negb (hits (clearFilter email) t)) (todos d) |};
             journal := [CallDeleteMany "todos" (clearFilter email)] |}).
Proof.
  unfold clearTodos, clearFilter, bind, DeleteMany, call; simpl.
  destruct (outage env 0); simpl; case_bool_decide; by rewrite ?insert_empty.
Qed.

(** ** One user for an email *)

Lemma users_after env req d :
  let d' := db (serve env req d).2 in
  users d' = users d ∨ users d' = []
  ∨ ∃ E P, normalizeEmail E ≠ ""
      ∧ (outage env 0 = true ∨ ∀ u, u ∈ users d → User_Email u ≠ normalizeEmail E)
      ∧ users d' = users d ++ [mkUser (normalizeEmail E) (normalizeText P)].
Proof.
  destruct req as [body|body| | | |email|body|id body|id|email];
    unfold serve, route; cbv zeta.
  - destruct (registerUser_users env d body) as [_ [Hsame|Hnew]]; [by left|].
    destruct Hnew as (E & P & _ & HE & _ & Hfree & Hd').
    right; right. by exists E, P.
  - left. by rewrite loginUser_db.
  - by left.
  - left. by rewrite listUsers_db.
  - rewrite clearUsers_db. destruct (outage env 0); [by left|by right; left].
  - left. by rewrite listTodos_db.
  - left. destruct body as [[E T]|]; [|done].
    destruct (decide (normalizeEmail E = "")) as [HE|HE];
      [by rewrite createTodo_blank by auto|].
    destruct (decide (normalizeText T = "")) as [HT|HT];
      [by rewrite createTodo_blank by auto|].
    rewrite createTodo_valid by done. by destruct (_ || _).
  - left. unfold updateTodo.
    destruct (primitive.ObjectIDFromHex id) as [objID|]; [|done].
    destruct body as [[[title|] [completed|]]|]; simpl; try done;
      repeat case_bool_decide; try done;
      unfold bind, UpdateByID, FindOne, call; simpl;
      (destruct (outage env 0); [done|]); simpl;
      (destruct (outage env 1); [done|]); simpl; by destruct (List.find _ _).
  - left. unfold deleteTodo.
    destruct (primitive.ObjectIDFromHex id) as [objID|]; [|done].
    unfold bind, DeleteOne, call; simpl. by destruct (outage env 0).
  - left. rewrite clearTodos_eq. by destruct (outage env 0).
Qed.

Lemma serve_uniqueEmails env req d :
  outage env 0 = false → uniqueEmails d →
  uniqueEmails (db (serve env req d).2).
Proof.
  intros Hup Hnodup.
  destruct (users_after env req d) as [Hd'|[Hd'|Hd']]; unfold uniqueEmails.
  - by rewrite Hd'.
  - rewrite Hd'. apply NoDup_nil_2.
  - destruct Hd' as (E & P & HE & [Hlost|Hfree] & ->); [congruence|].
    rewrite fmap_app. apply NoDup_app. split; [done|]. split.
    + intros e [u [-> Hu]]%list_elem_of_fmap Hin. simpl in Hin.
      apply list_elem_of_singleton in Hin. by destruct (Hfree u).
    + apply NoDup_singleton.
Qed.

Lemma serveAll_uniqueEmails reqs d :
  Forall (λ er : Env * Request, outage er.1 0 = false) reqs →
  uniqueEmails d → uniqueEmails (serveAll reqs d).
Proof.
  intros Hreqs. revert d.
  induction Hreqs as [|[env req] reqs Hup _ IH]; intros d Hd; simpl; [done|].
  apply IH. by apply serve_uniqueEmails.
Qed.

(** The number of elements with a key, in a list where a key is not
    shared. *)
Section CountByKey.
Context {A K : Type} `{EqDecision K} (key : A → K).

Lemma count_key_absent (k : K) (l : list A) :
  (∀ x, x ∈ l → key x ≠ k) → filter (λ x, key x = k) l = [].
Proof.
  induction l as [|a l IH]; intros Hl; [done|].
  rewrite filter_cons_False; [|apply Hl; left].
  apply IH. intros x Hx. apply Hl. by right.
Qed.

Lemma count_key_NoDup (k : K) (l : list A) (x : A) :
  NoDup (key <$> l) → x ∈ l → key x = k →
  length (filter (λ x, key x = k) l) = 1.
Proof.
  induction l as [|a l IH]; simpl.
  - intros _ Hx. by apply elem_of_nil in Hx.
  - intros [Ha Hl]%NoDup_cons [->|Hx]%elem_of_cons Hk.
    + rewrite filter_cons_True by done. simpl.
      rewrite count_key_absent; [done|].
      intros y Hy Hyk. apply Ha. rewrite Hk, <- Hyk.
      by apply list_elem_of_fmap_2.
    + rewrite filter_cons_False; [by apply IH|].
      intros Hak. apply Ha. rewrite Hak, <- Hk.
      by apply list_elem_of_fmap_2.
Qed.

End CountByKey.

(** After a registration that passes the validation and loses no call, a
    user has the email. *)
Lemma registerUser_registers env d E P :
  outage env 0 = false → outage env 1 = false →
  normalizeEmail E ≠ "" → normalizeText P ≠ "" →
  ∃ u, u ∈ users (db (registerUser env (Some (mkUser E P)) (start d)).2)
       ∧ User_Email u = normalizeEmail E.
Proof.
  intros H0 H1 HE HP. rewrite registerUser_valid by done.
  rewrite FindOne_user_start, H0, H1. simpl.
  destruct (List.find _ (users d)) as [u|] eqn:Hfind; simpl.
  - apply find_key_Some in Hfind. by exists u.
  - exists (mkUser (normalizeEmail E) (normalizeText P)).
    split; [|done]. apply elem_of_app. right. apply list_elem_of_here.
Qed.

(** C2, as the code has it.  When both bodies pass the validation (the
    email and the two passwords are not empty after normalisation), no
    call is lost and no two stored users share an email, registering
    the email twice leaves exactly one user whose stored email is the
    normalised email, the second registration is refused with status
    409, it changes nothing in the database and issues no write.  Any
    sequence of requests whose first call is not lost keeps the stored
    emails distinct. *)
Theorem register_twice (env1 env2 : Env) (d : Database) (E P1 P2 : string) :
  outage env1 0 = false → outage env1 1 = false → outage env2 0 = false →
  uniqueEmails d →
  normalizeEmail E ≠ "" → normalizeText P1 ≠ "" → normalizeText P2 ≠ "" →
  let d1 := db (registerUser env1 (Some (mkUser E P1)) (start d)).2 in
  let out2 := registerUser env2 (Some (mkUser E P2)) (start d1) in
  length (filter (λ u, User_Email u = normalizeEmail E)
            (users (db out2.2))) = 1
  ∧ out2.1 = JSON http.StatusConflict [("error", AString "Usuario ya existe")]
  ∧ db out2.2 = d1
  ∧ Forall (λ c, isWrite c = false) (journal out2.2)
  ∧ ∀ reqs, Forall (λ er : Env * Request, outage er.1 0 = false) reqs →
            uniqueEmails (serveAll reqs d).
Proof.
  intros H10 H11 H20 Hd HE HP1 HP2 d1 out2.
  assert (uniqueEmails d1) as Hd1
    by apply (serve_uniqueEmails env1 (POST_register (Some (mkUser E P1))) d H10 Hd).
  destruct (registerUser_registers env1 d E P1 H10 H11 HE HP1) as (u & Hu & Hmail).
  fold d1 in Hu.
  assert (out2 = (JSON http.StatusConflict [("error", AString "Usuario ya existe")],
                  {| db := d1;
                     journal := [CallFindOne "users"
                                   {[ "email" := VString (normalizeEmail E) ]}] |}))
    as ->.
  { unfold out2. rewrite registerUser_valid by done.
    rewrite FindOne_user_start, H20. simpl.
    by rewrite (find_key_NoDup User_Email _ _ u Hd1 Hu Hmail). }
  simpl. split_and!; try done.
  - by apply (count_key_NoDup User_Email _ _ u).
  - by repeat constructor.
  - intros reqs Hreqs. by apply serveAll_uniqueEmails.
Qed.

(** ** Creating and listing to-dos *)

(** C3.  A create request whose title is empty after trimming, or whose
    email is empty after normalisation, is refused with status 400; the
    handler issues no call to the store and the database is as before,
    whatever the environment. *)
Theorem createTodo_blank_refused (env : Env) (d : Database) (E T : string) :
  normalizeText T = "" ∨ normalizeEmail E = "" →
  let out := createTodo env (Some (mkCreateInput E T)) (start d) in
  out.1 = JSON http.StatusBadRequest
            [("error", AString "Email y título son requeridos")]
  ∧ journal out.2 = []
  ∧ db out.2 = d.
Proof.
  intros Hblank. cbv zeta. by rewrite createTodo_blank by tauto.
Qed.

Lemma Hex_length id : String.length (primitive.Hex id) = 24.
Proof. reflexivity. Qed.

Lemma existsb_id_fresh id (l : list Todo) :
  (∀ t, t ∈ l → Todo_ID t ≠ id) →
  existsb (λ t, bool_decide (Todo_ID t = id)) l = false.
Proof.
  induction l as [|a l IH]; intros Hl; simpl; [done|].
  rewrite bool_decide_eq_false_2 by (apply Hl; left). simpl.
  apply IH. intros t Ht. apply Hl. by right.
Qed.

Lemma elem_of_List_filter {A} (f : A → bool) (l : list A) (x : A) :
  x ∈ List.filter f l ↔ x ∈ l ∧ f x = true.
Proof. rewrite !list_elem_of_In. apply filter_In. Qed.

(** C4.  When no call is lost and the identifier the driver generates is
    not taken, creating a to-do for "a@b.com" with the title "buy milk"
    is answered with status 201 and the projection of the new to-do: its
    [completed] is false and its identifier, 24 hexadecimal digits, is
    not empty.  Listing with the query "A@B.COM " right after it is
    answered with status 200 and a list that holds this to-do, the owner
    stored and the query being normalised alike: the projection listed
    has the identifier, the owner, the title and the [completed] of the
    one returned, and the time of the request in whole milliseconds, as
    the store keeps it; it is the projection returned exactly when the
    time of the request is a whole number of milliseconds. *)
Theorem create_then_list (env1 env2 : Env) (d : Database) :
  outage env1 0 = false → outage env2 0 = false → outage env2 1 = false →
  (∀ t, t ∈ todos d → Todo_ID t ≠ NewObjectID env1) →
  let out1 := createTodo env1 (Some (mkCreateInput "a@b.com" "buy milk")) (start d) in
  let created := {| TodoResponse_ID := primitive.Hex (NewObjectID env1);
                    TodoResponse_Email := "a@b.com";
                    TodoResponse_Title := "buy milk";
                    TodoResponse_Completed := false;
                    TodoResponse_CreatedAt := now env1 |} in
  let stored := {| TodoResponse_ID := primitive.Hex (NewObjectID env1);
                   TodoResponse_Email := "a@b.com";
                   TodoResponse_Title := "buy milk";
                   TodoResponse_Completed := false;
                   TodoResponse_CreatedAt := (now env1 / 1000000 * 1000000)%Z |} in
  out1.1 = JSON http.StatusCreated [("todo", ATodo created)]
  ∧ TodoResponse_Completed created = false
  ∧ TodoResponse_ID created ≠ ""
  ∧ normalizeEmail "A@B.COM " = normalizeEmail "a@b.com"
  ∧ (∃ listed,
      (listTodos env2 "A@B.COM " (start (db out1.2))).1
      = JSON http.StatusOK [("todos", ATodos listed)]
      ∧ stored ∈ listed)
  ∧ (TodoResponse_CreatedAt stored ≤ now env1
     < TodoResponse_CreatedAt stored + 1000000)%Z
  ∧ (stored = created ↔ (now env1 mod 1000000 = 0)%Z).
Proof.
  intros H10 H20 H21 Hfresh out1 created stored.
  assert (normalizeEmail "a@b.com" = "a@b.com") as Ha
    by by rewrite normalizeEmail_ASCII.
  assert (normalizeEmail "A@B.COM " = "a@b.com") as HA
    by by rewrite normalizeEmail_ASCII.
  assert (normalizeText "buy milk" = "buy milk") as Hm
    by by rewrite normalizeText_ASCII.
  assert (out1 = (JSON http.StatusCreated [("todo", ATodo created)],
                  {| db := {| users := users d;
                              todos := todos d
                                       ++ [insertedTodo env1 "a@b.com" "buy milk"] |};
                     journal := [CallInsertOne "todos"
                                   (marshal (newTodo env1 "a@b.com" "buy milk"))] |}))
    as ->.
  { unfold out1. rewrite createTodo_valid by by rewrite ?Ha, ?Hm.
    rewrite H10, existsb_id_fresh by done.
    unfold newTodo, toTodoResponse. cbn [fst snd orb Todo_ID Todo_Email Todo_Title
      Todo_Completed Todo_CreatedAt]. by rewrite Ha, Hm. }
  split_and!; [done|done| |by rewrite Ha, HA| | | |].
  - intros Hempty. pose proof (Hex_length (NewObjectID env1)) as Hlen.
    cbn [created TodoResponse_ID] in Hempty. by rewrite Hempty in Hlen.
  - eexists. split; [by rewrite listTodos_up|].
    assert (stored = toTodoResponse (insertedTodo env1 "a@b.com" "buy milk"))
      as ->.
    { unfold stored, insertedTodo, toTodoResponse.
      cbn [Todo_ID Todo_Email Todo_Title Todo_Completed Todo_CreatedAt].
      by rewrite Ha, Hm. }
    apply list_elem_of_fmap_2, elem_of_List_filter. split.
    + apply elem_of_app. right. apply list_elem_of_here.
    + unfold listFilter. rewrite bool_decide_eq_true_2 by done.
      rewrite hits_todo_email, HA. apply bool_decide_eq_true_2.
      unfold insertedTodo. cbn [Todo_Email]. by rewrite Ha.
  - cbn [stored TodoResponse_CreatedAt].
    pose proof (Z.mul_div_le (now env1) 1000000). lia.
  - cbn [stored TodoResponse_CreatedAt].
    pose proof (Z.mul_succ_div_gt (now env1) 1000000). lia.
  - pose proof (Z.div_mod (now env1) 1000000) as Hdiv.
    unfold stored, created. split.
    + intros [= Heq]. lia.
    + intros Hmod. f_equal. lia.
Qed.

(** ** Updating a to-do *)

Lemma updateTodo_invalid_id env d idHex body :
  primitive.ObjectIDFromHex idHex = None →
  updateTodo env idHex body (start d)
  = (JSON http.StatusBadRequest [("error", AString "ID inválido")], start d).
Proof. intros Hid. unfold updateTodo. by rewrite Hid. Qed.

Lemma updateTodo_blank_title env d idHex objID input :
  primitive.ObjectIDFromHex idHex = Some objID →
  normalizeText <$> UpdateInput_Title input = Some "" →
  updateTodo env idHex (Some input) (start d)
  = (JSON http.StatusBadRequest
       [("error", AString "El título no puede estar vacío")], start d).
Proof.
  intros Hid Htitle. unfold updateTodo. rewrite Hid.
  destruct (UpdateInput_Title input) as [title|]; [|done].
  injection Htitle as Htitle. by rewrite bool_decide_eq_true_2.
Qed.

Lemma updateTodo_nothing env d idHex objID input :
  primitive.ObjectIDFromHex idHex = Some objID →
  UpdateInput_Title input = None → UpdateInput_Completed input = None →
  updateTodo env idHex (Some input) (start d)
  = (JSON http.StatusBadRequest [("error", AString "Nada para actualizar")],
     start d).
Proof.
  intros Hid Htitle Hcompleted. unfold updateTodo.
  by rewrite Hid, Htitle, Hcompleted.
Qed.

(** The database after [updateTodo]: as before, or with the update
    document of the body applied to the first to-do with the
    identifier. *)
Lemma updateTodo_db env d idHex body :
  let d' := db (updateTodo env idHex body (start d)).2 in
  d' = d
  ∨ ∃ objID input,
      primitive.ObjectIDFromHex idHex = Some objID ∧ body = Some input
      ∧ d' = {| users := users d;
                todos := updateFirst {[ "_id" := VObjectID objID ]}
                           (updateDocument input) (todos d) |}.
Proof.
  cbv zeta.
  destruct (primitive.ObjectIDFromHex idHex) as [objID|] eqn:Hid;
    [|left; by rewrite updateTodo_invalid_id].
  destruct body as [input|]; [|left; unfold updateTodo; by rewrite Hid].
  destruct (decide (normalizeText <$> UpdateInput_Title input = Some ""))
    as [Hblank|Hblank];
    [left; by rewrite (updateTodo_blank_title _ _ _ objID)|].
  destruct (UpdateInput_Title input) as [title|] eqn:Htitle.
  - rewrite (updateTodo_valid _ _ _ objID);
      [|done|by rewrite Htitle|left; by rewrite Htitle].
    destruct (outage env 0); [by left|].
    right. exists objID, input. by destruct (outage env 1).
  - destruct (UpdateInput_Completed input) as [completed|] eqn:Hcompleted;
      [|left; by rewrite (updateTodo_nothing _ _ _ objID)].
    rewrite (updateTodo_valid _ _ _ objID);
      [|done|by rewrite Htitle|right; by rewrite Hcompleted].
    destruct (outage env 0); [by left|].
    right. exists objID, input. by destruct (outage env 1).
Qed.

Lemma framed_refl objID body t : framed objID body t t.
Proof. by repeat split. Qed.

Lemma framed_applySet objID input (t : Todo) :
  Todo_ID t = objID →
  framed (Some objID) (Some input) t (applySet (updateDocument input) t).
Proof.
  intros Hid. unfold framed; simpl.
  rewrite !updateDocument_other by done.
  rewrite updateDocument_title, updateDocument_completed.
  split_and!; try done.
  - by intros ->.
  - by intros ->.
  - intros Hne. destruct Hne. by rewrite Hid.
Qed.

Lemma updateFirst_framed objID input (l : list Todo) :
  Forall2 (framed (Some objID) (Some input)) l
    (updateFirst {[ "_id" := VObjectID objID ]} (updateDocument input) l).
Proof.
  induction l as [|t l IH]; simpl; [constructor|].
  rewrite hits_todo_id. case_bool_decide as Hid.
  - constructor; [by apply framed_applySet|].
    apply Forall2_same_length_lookup. split; [done|].
    intros i x y Hx Hy. rewrite Hx in Hy. injection Hy as <-. apply framed_refl.
  - constructor; [apply framed_refl|done].
Qed.

Lemma find_updateFirst objID update (l : list Todo) :
  List.find (λ t, bool_decide (Todo_ID t = objID))
    (updateFirst {[ "_id" := VObjectID objID ]} update l)
  = applySet update <$> List.find (λ t, bool_decide (Todo_ID t = objID)) l.
Proof.
  induction l as [|t l IH]; simpl; [done|].
  rewrite hits_todo_id. case_bool_decide as Hid; simpl.
  - by rewrite bool_decide_eq_true_2.
  - by rewrite bool_decide_eq_false_2.
Qed.

Lemma todos_framed_by_update env d idHex body :
  Forall2 (framed (primitive.ObjectIDFromHex idHex) body)
    (todos d) (todos (db (updateTodo env idHex body (start d)).2)).
Proof.
  destruct (updateTodo_db env d idHex body) as [->|(objID & input & -> & -> & ->)].
  - apply Forall2_same_length_lookup. split; [done|].
    intros i x y Hx Hy. rewrite Hx in Hy. injection Hy as <-. apply framed_refl.
  - apply updateFirst_framed.
Qed.

Lemma Forall2_fmap_eq {A B} (R : A → A → Prop) (f : A → B) (l l' : list A) :
  (∀ x y, R x y → f y = f x) → Forall2 R l l' → f <$> l' = f <$> l.
Proof.
  intros HR Hl. induction Hl as [|x y l l' Hxy _ IH]; [done|].
  by rewrite !fmap_cons, IH, (HR x y).
Qed.

(** C5.  Whatever the request and the environment, [updateTodo] leaves
    the users alone and changes the to-dos within [framed]: a to-do with
    another identifier is unchanged, and the addressed to-do keeps its
    identifier, owner and creation time, its title when the body has no
    title and its [completed] when the body has no [completed].  In a
    response with status 200 the to-do returned has the trimmed title of
    the body, when the body has one, and the [completed] of the body,
    when it has one. *)
Theorem updateTodo_frame (env : Env) (d : Database) (idHex : string)
    (body : option UpdateInput) :
  let out := updateTodo env idHex body (start d) in
  users (db out.2) = users d
  ∧ Forall2 (framed (primitive.ObjectIDFromHex idHex) body)
      (todos d) (todos (db out.2))
  ∧ ∀ updated, out.1 = JSON http.StatusOK [("todo", ATodo updated)] →
      (∀ title, body ≫= UpdateInput_Title = Some title →
         TodoResponse_Title updated = normalizeText title)
      ∧ (∀ completed, body ≫= UpdateInput_Completed = Some completed →
           TodoResponse_Completed updated = completed).
Proof.
  cbv zeta. split_and!.
  - destruct (updateTodo_db env d idHex body) as [->|(objID & input & _ & _ & ->)];
      done.
  - apply todos_framed_by_update.
  - intros updated.
    destruct (primitive.ObjectIDFromHex idHex) as [objID|] eqn:Hid;
      [|by rewrite updateTodo_invalid_id].
    destruct body as [input|]; [|unfold updateTodo; by rewrite Hid].
    destruct (decide (normalizeText <$> UpdateInput_Title input = Some ""))
      as [Hblank|Hblank];
      [by rewrite (updateTodo_blank_title _ _ _ objID)|].
    destruct (decide (UpdateInput_Title input = None
                      ∧ UpdateInput_Completed input = None)) as [[Ht Hc]|Hsome];
      [by rewrite (updateTodo_nothing _ _ _ objID)|].
    rewrite (updateTodo_valid _ _ _ objID); [|done|done|].
    2:{ destruct (UpdateInput_Title input), (UpdateInput_Completed input);
          auto; by destruct Hsome. }
    destruct (outage env 0); [done|]. destruct (outage env 1); [done|].
    simpl. rewrite find_updateFirst.
    destruct (List.find _ (todos d)) as [t|]; simpl; [|done].
    intros [= <-]. simpl.
    rewrite updateDocument_title, updateDocument_completed.
    split.
    + intros title ->. done.
    + intros completed ->. done.
Qed.

(** The case of the specification: a body with [completed] alone leaves
    every title as it was. *)
Corollary updateTodo_completed_keeps_title env d idHex completed :
  let body := Some {| UpdateInput_Title := None;
                      UpdateInput_Completed := Some completed |} in
  Todo_Title <$> todos (db (updateTodo env idHex body (start d)).2)
  = Todo_Title <$> todos d.
Proof.
  cbv zeta. eapply Forall2_fmap_eq; [|apply todos_framed_by_update].
  intros t t' (_ & _ & _ & Htitle & _). by apply Htitle.
Qed.

(** A body with a title alone leaves every [completed] as it was. *)
Corollary updateTodo_title_keeps_completed env d idHex title :
  let body := Some {| UpdateInput_Title := Some title;
                      UpdateInput_Completed := None |} in
  Todo_Completed <$> todos (db (updateTodo env idHex body (start d)).2)
  = Todo_Completed <$> todos d.
Proof.
  cbv zeta. eapply Forall2_fmap_eq; [|apply todos_framed_by_update].
  intros t t' (_ & _ & _ & _ & Hcompleted & _). by apply Hcompleted.
Qed.

(** C6.  [updateTodo] refuses, with status 400, an identifier that is not
    24 hexadecimal digits ("ID inválido"); then a title that is empty
    after trimming; then a body with neither a title nor [completed]
    ("Nada para actualizar").  In each case the handler issues no call to
    the store and the database is as before. *)
Theorem updateTodo_refusals (env : Env) (d : Database) (idHex : string)
    (body : option UpdateInput) :
  let out := updateTodo env idHex body (start d) in
  let refused msg :=
    out.1 = JSON http.StatusBadRequest [("error", AString msg)]
    ∧ journal out.2 = [] ∧ db out.2 = d in
  (primitive.ObjectIDFromHex idHex = None → refused "ID inválido")
  ∧ (∀ objID input title,
       primitive.ObjectIDFromHex idHex = Some objID → body = Some input →
       UpdateInput_Title input = Some title → normalizeText title = "" →
       refused "El título no puede estar vacío")
  ∧ (∀ objID input,
       primitive.ObjectIDFromHex idHex = Some objID → body = Some input →
       UpdateInput_Title input = None → UpdateInput_Completed input = None →
       refused "Nada para actualizar").
Proof.
  cbv zeta. split_and!.
  - intros Hid. by rewrite updateTodo_invalid_id.
  - intros objID input title Hid -> Htitle Hblank.
    rewrite (updateTodo_blank_title _ _ _ objID); [done|done|].
    by rewrite Htitle; simpl; rewrite Hblank.
  - intros objID input Hid -> Htitle Hcompleted.
    by rewrite (updateTodo_nothing _ _ _ objID).
Qed.

(** ** Deleting to-dos *)

Lemma List_filter_Prop {A} (f : A → bool) (P : A → Prop) `{∀ x, Decision (P x)}
    (l : list A) :
  (∀ x, f x = true ↔ P x) → List.filter f l = filter P l.
Proof.
  intros HfP. induction l as [|a l IH]; simpl; [done|].
  destruct (f a) eqn:Hfa.
  - rewrite filter_cons_True by (by apply HfP). by rewrite IH.
  - rewrite filter_cons_False; [done|].
    intros HP. apply HfP in HP. congruence.
Qed.

Lemma filter_all {A} (P : A → Prop) `{∀ x, Decision (P x)} (l : list A) :
  (∀ x, x ∈ l → P x) → filter P l = l.
Proof.
  induction l as [|a l IH]; intros Hl; [done|].
  rewrite filter_cons_True by (apply Hl; left).
  f_equal. apply IH. intros x Hx. apply Hl. by right.
Qed.

(** With unique identifiers, deleting the first to-do with an identifier
    deletes every to-do with it. *)
Lemma deleteFirst_unique id (l : list Todo) :
  NoDup (Todo_ID <$> l) →
  deleteFirst {[ "_id" := VObjectID id ]} l = filter (λ t, Todo_ID t ≠ id) l.
Proof.
  induction l as [|t l IH]; simpl; [done|].
  intros [Ht Hl]%NoDup_cons. rewrite hits_todo_id.
  case_bool_decide as Hid.
  - rewrite filter_cons_False by (intros Hne; by apply Hne).
    symmetry. apply filter_all. intros x Hx Hxid. apply Ht.
    rewrite Hid, <- Hxid. by apply list_elem_of_fmap_2.
  - rewrite filter_cons_True by done. by rewrite IH.
Qed.

(** C7.  [deleteTodo] refuses an identifier that is not 24 hexadecimal
    digits with status 400, issues no call and leaves the database as it
    was.  For a well-formed identifier, when the call is not lost, the
    response is the same 200 whether or not a to-do has the identifier;
    with unique identifiers the to-dos afterwards are those with another
    identifier, so none has it, and deleting again gives the same
    response and changes nothing. *)
Theorem deleteTodo_idempotent (env env' : Env) (d : Database) (idHex : string) :
  let out := deleteTodo env idHex (start d) in
  (primitive.ObjectIDFromHex idHex = None →
     out.1 = JSON http.StatusBadRequest [("error", AString "ID inválido")]
     ∧ journal out.2 = [] ∧ db out.2 = d)
  ∧ (∀ objID, primitive.ObjectIDFromHex idHex = Some objID →
       outage env 0 = false →
       out.1 = JSON http.StatusOK [("message", AString "Tarea eliminada")]
       ∧ users (db out.2) = users d
       ∧ (uniqueIDs d →
            (∀ t, t ∈ todos (db out.2) ↔ t ∈ todos d ∧ Todo_ID t ≠ objID)
            ∧ (outage env' 0 = false →
                 let again := deleteTodo env' idHex (start (db out.2)) in
                 again.1 = out.1 ∧ db again.2 = db out.2))).
Proof.
  cbv zeta. split.
  - intros Hid. unfold deleteTodo. by rewrite Hid.
  - intros objID Hid Hup. rewrite (deleteTodo_valid _ _ _ objID), Hup by done.
    simpl. split_and!; [done|done|]. intros Hunique.
    rewrite deleteFirst_unique by done. split.
    + intros t. rewrite list_elem_of_filter. tauto.
    + intros Hup'. rewrite (deleteTodo_valid _ _ _ objID), Hup' by done.
      simpl. split; [done|]. f_equal.
      rewrite deleteFirst_unique.
      * apply filter_all. by intros t [Ht _]%list_elem_of_filter.
      * eapply sublist_NoDup; [apply Hunique|].
        apply fmap_sublist, sublist_filter.
Qed.

(** The store keeps identifiers unique through every request. *)
Lemma existsb_id_false id (l : list Todo) :
  existsb (λ t, bool_decide (Todo_ID t = id)) l = false →
  ∀ t, t ∈ l → Todo_ID t ≠ id.
Proof.
  induction l as [|a l IH]; simpl.
  - intros _ t Ht. by apply elem_of_nil in Ht.
  - intros [Ha Hl]%orb_false_elim t [->|Ht]%elem_of_cons.
    + by apply bool_decide_eq_false in Ha.
    + by apply IH.
Qed.

Lemma deleteFirst_sublist {A} `{Document A} filter (l : list A) :
  deleteFirst filter l `sublist_of` l.
Proof.
  induction l as [|a l IH]; simpl; [done|].
  destruct (hits filter a); [by apply sublist_cons|by apply sublist_skip].
Qed.

Lemma List_filter_sublist {A} (f : A → bool) (l : list A) :
  List.filter f l `sublist_of` l.
Proof.
  induction l as [|a l IH]; simpl; [done|].
  destruct (f a); [by apply sublist_skip|by apply sublist_cons].
Qed.

Lemma serve_uniqueIDs env req d :
  uniqueIDs d → uniqueIDs (db (serve env req d).2).
Proof.
  unfold uniqueIDs. intros Hunique.
  destruct req as [body|body| | | |email|body|id body|id|email];
    unfold serve, route.
  - by rewrite (proj1 (registerUser_users env d body)).
  - by rewrite loginUser_db.
  - done.
  - by rewrite listUsers_db.
  - rewrite clearUsers_db. by destruct (outage env 0).
  - by rewrite listTodos_db.
  - destruct body as [[E T]|]; [|done].
    destruct (decide (normalizeEmail E = "")) as [HE|HE];
      [by rewrite createTodo_blank by auto|].
    destruct (decide (normalizeText T = "")) as [HT|HT];
      [by rewrite createTodo_blank by auto|].
    rewrite createTodo_valid by done.
    destruct (outage env 0); simpl; [done|].
    destruct (existsb _ (todos d)) eqn:Htaken; simpl; [done|].
    rewrite fmap_app. apply NoDup_app. split_and!; [done| |apply NoDup_singleton].
    intros i [t [-> Ht]]%list_elem_of_fmap Hin. simpl in Hin.
    apply list_elem_of_singleton in Hin.
    by apply (existsb_id_false _ _ Htaken t).
  - rewrite (Forall2_fmap_eq _ Todo_ID _ _
               (λ t t' Hf, proj1 Hf) (todos_framed_by_update env d id body)).
    done.
  - unfold deleteTodo.
    destruct (primitive.ObjectIDFromHex id) as [objID|]; [|done].
    unfold bind, DeleteOne, call; simpl. destruct (outage env 0); [done|].
    simpl. eapply sublist_NoDup; [apply Hunique|].
    apply fmap_sublist, deleteFirst_sublist.
  - rewrite clearTodos_eq. destruct (outage env 0); [done|]. simpl.
    eapply sublist_NoDup; [apply Hunique|].
    apply fmap_sublist, List_filter_sublist.
Qed.

Lemma serveAll_uniqueIDs reqs d : uniqueIDs d → uniqueIDs (serveAll reqs d).
Proof.
  revert d. induction reqs as [|[env req] reqs IH]; intros d Hd; simpl; [done|].
  by apply IH, serve_uniqueIDs.
Qed.


(** With an empty query [clearTodos] sends the empty filter and every
    to-do is deleted. *)
Lemma clearTodos_no_query env d :
  outage env 0 = false →
  (clearTodos env "" (start d)).2
  = {| db := {| users := users d; todos := [] |};
       journal := [CallDeleteMany "todos" ∅] |}.
Proof.
  intros Hup. rewrite clearTodos_eq, Hup. simpl. unfold clearFilter; simpl.
  rewrite filter_none; [done|]. intros t. by rewrite hits_empty.
Qed.

(** ** Listing with a query of white space *)

(** C9.  [listTodos] tests the query for emptiness before normalising it.
    A query that is not empty but trims to the empty string is therefore
    sent as the filter on the empty owner: when no call is lost the
    response lists the to-dos whose stored owner is the empty string, so
    no to-do at all when every owner is non-empty, whereas the empty
    query lists every to-do of the store. *)
Theorem listTodos_blank_query (env : Env) (d : Database) (email : string) :
  email ≠ "" → strings.TrimSpace email = "" →
  outage env 0 = false → outage env 1 = false →
  let out := listTodos env email (start d) in
  journal out.2 = [CallFind "todos" {[ "email" := VString "" ]}; CallAll "todos"]
  ∧ out.1 = JSON http.StatusOK
              [("todos",
                ATodos (toTodoResponse <$> filter (λ t, Todo_Email t = "") (todos d)))]
  ∧ (Forall (λ t, Todo_Email t ≠ "") (todos d) →
       out.1 = JSON http.StatusOK [("todos", ATodos [])])
  ∧ (listTodos env "" (start d)).1
    = JSON http.StatusOK [("todos", ATodos (toTodoResponse <$> todos d))].
Proof.
  intros Hemail Hblank H0 H1. cbv zeta. rewrite !listTodos_up by done. simpl.
  unfold listFilter. rewrite bool_decide_eq_true_2 by done.
  unfold normalizeEmail. rewrite Hblank, ToLower_empty. simpl.
  assert (List.filter (hits {[ "email" := VString "" ]}) (todos d)
          = filter (λ t, Todo_Email t = "") (todos d)) as ->.
  { apply List_filter_Prop. intros t. by rewrite hits_todo_email, bool_decide_eq_true. }
  split_and!; try done.
  - intros Howned. rewrite count_key_absent; [done|].
    intros t Ht. rewrite Forall_forall in Howned. by apply Howned.
  - rewrite (List_filter_Prop _ (λ _, True)).
    + by rewrite filter_all.
    + intros t. by rewrite hits_empty.
Qed.

(** ** Registration and a look-up that fails *)

(** C10.  [registerUser] issues its look-up for a body that passes the
    validation, and for no other.  It then answers 409 exactly when the
    look-up returns a user.  When the look-up returns an error, whichever
    it is, the handler goes on to the insert: the journal holds the
    look-up and the insert, the response is 201 when the insert goes
    through, with the user added at the end of the collection, and
    otherwise the 500 of the insert; no response reports the failure of
    the look-up.  A look-up that is lost returns an error that is not the
    absence of a document. *)
Theorem registerUser_lookup_failure (env : Env) (d : Database) (E P : string) :
  let user := mkUser (normalizeEmail E) (normalizeText P) in
  let filter : bson.M := {[ "email" := VString (normalizeEmail E) ]} in
  let lookup := (FindOne userCollection env filter (start d)).1 in
  let out := registerUser env (Some (mkUser E P)) (start d) in
  (normalizeEmail E = "" ∨ normalizeText P = "" →
     code out.1 = http.StatusBadRequest ∧ out.2 = start d)
  ∧ (normalizeEmail E ≠ "" → normalizeText P ≠ "" →
       (out.1 = JSON http.StatusConflict [("error", AString "Usuario ya existe")]
        ↔ ∃ existing, lookup = ok existing)
       ∧ (∀ e, lookup = err e →
            journal out.2
            = [CallFindOne "users" filter; CallInsertOne "users" (marshal user)]
            ∧ out.1 = (if outage env 1
                       then JSON http.StatusInternalServerError
                              [("error", AString "Error al registrar")]
                       else JSON http.StatusCreated
                              [("message", AString "Usuario registrado con éxito")])
            ∧ (outage env 1 = false → users (db out.2) = users d ++ [user])))
  ∧ (outage env 0 = true → lookup = err ErrConnection).
Proof.
  cbv zeta. split_and!.
  - intros Hblank. by rewrite registerUser_blank.
  - intros HE HP. rewrite registerUser_valid by done.
    destruct (FindOne userCollection env _ (start d)).1 as [existing|e] eqn:Hlookup.
    + split; [|done]. split; [by exists existing|done].
    + split.
      * split; [by destruct (outage env 1)|by intros [? ?]].
      * intros _ _. by destruct (outage env 1).
  - intros Hlost. by rewrite FindOne_user_start, Hlost.
Qed.

(** * Further properties of the handlers and their helpers *)

(** ** Every handler, case by case *)

Lemma loginUser_lost env d E P :
  normalizeEmail E ≠ "" → normalizeText P ≠ "" → outage env 0 = true →
  loginUser env (Some (mkUser E P)) (start d)
  = (JSON http.StatusUnauthorized [("error", AString "Usuario no encontrado")],
     {| db := d;
        journal := [CallFindOne "users" {[ "email" := VString (normalizeEmail E) ]}] |}).
Proof.
  intros HE HP Hlost. unfold loginUser; simpl.
  rewrite !bool_decide_eq_false_2 by done. simpl.
  unfold bind. by rewrite FindOne_user_start, Hlost.
Qed.

Lemma List_filter_all {A} (f : A → bool) (l : list A) :
  (∀ x, f x = true) → List.filter f l = l.
Proof. intros Hf. induction l as [|a l IH]; simpl; [done|]. by rewrite Hf, IH. Qed.

Lemma listUsers_eq env d :
  listUsers env (start d)
  = if outage env 0
    then (JSON http.StatusInternalServerError
            [("error", AString "Error al obtener usuarios")],
          {| db := d; journal := [CallFind "users" ∅] |})
    else if outage env 1
    then (JSON http.StatusInternalServerError
            [("error", AString "Error al procesar usuarios")],
          {| db := d; journal := [CallFind "users" ∅; CallAll "users"] |})
    else (JSON http.StatusOK [("users", AUsers (users d))],
          {| db := d; journal := [CallFind "users" ∅; CallAll "users"] |}).
Proof.
  unfold listUsers, bind, Find, All, call; simpl.
  destruct (outage env 0); [done|]. simpl.
  destruct (outage env 1); [done|]. simpl.
  rewrite List_filter_all; [done|]. intros u. apply hits_empty.
Qed.

Lemma clearUsers_eq env d :
  clearUsers env (start d)
  = if outage env 0
    then (JSON http.StatusInternalServerError
            [("error", AString "Error al limpiar usuarios")],
          {| db := d; journal := [CallDeleteMany "users" ∅] |})
    else (JSON http.StatusOK
            [("message", AString "Todos los usuarios han sido eliminados")],
          {| db := {| users := []; todos := todos d |};
             journal := [CallDeleteMany "users" ∅] |}).
Proof.
  unfold clearUsers, bind, DeleteMany, call; simpl.
  destruct (outage env 0); [done|]. simpl.
  rewrite filter_none; [done|]. intros u. by rewrite hits_empty.
Qed.

Lemma listTodos_eq env d email :
  listTodos env email (start d)
  = if outage env 0
    then (JSON http.StatusInternalServerError
            [("error", AString "Error al obtener tareas")],
          {| db := d; journal := [CallFind "todos" (listFilter email)] |})
    else if outage env 1
    then (JSON http.StatusInternalServerError
            [("error", AString "Error al procesar tareas")],
          {| db := d;
             journal := [CallFind "todos" (listFilter email); CallAll "todos"] |})
    else (JSON http.StatusOK
            [("todos",
              ATodos (toTodoResponse
                        <$> List.filter (hits (listFilter email)) (todos d)))],
          {| db := d;
             journal := [CallFind "todos" (listFilter email); CallAll "todos"] |}).
Proof.
  destruct (outage env 0) eqn:H0; [|destruct (outage env 1) eqn:H1].
  - unfold listTodos, listFilter, bind, Find, All, call; simpl. rewrite H0.
    case_bool_decide; by rewrite ?insert_empty.
  - unfold listTodos, listFilter, bind, Find, All, call; simpl. rewrite H0; simpl.
    rewrite H1. case_bool_decide; by rewrite ?insert_empty.
  - by apply listTodos_up.
Qed.

Lemma updateTodo_unbound env d idHex objID :
  primitive.ObjectIDFromHex idHex = Some objID →
  updateTodo env idHex None (start d)
  = (JSON http.StatusBadRequest [("error", AString "Datos inválidos")], start d).
Proof. intros Hid. unfold updateTodo. by rewrite Hid. Qed.

Lemma deleteTodo_invalid_id env d idHex :
  primitive.ObjectIDFromHex idHex = None →
  deleteTodo env idHex (start d)
  = (JSON http.StatusBadRequest [("error", AString "ID inválido")], start d).
Proof. intros Hid. unfold deleteTodo. by rewrite Hid. Qed.

Lemma some_field {A B} (a : option A) (b : option B) :
  ¬ (a = None ∧ b = None) → a ≠ None ∨ b ≠ None.
Proof. destruct a, b; intros Hab; [by left|by left|by right|by destruct Hab]. Qed.

(** The cases of a request, one goal for each way through its handler. *)
Ltac register_cases env d body :=
  let E := fresh "E" in let P := fresh "P" in
  destruct body as [[E P]|]; [|simpl];
  [destruct (decide (normalizeEmail E = "")) as [?|?];
     [rewrite !registerUser_blank by auto|
      destruct (decide (normalizeText P = "")) as [?|?];
        [rewrite !registerUser_blank by auto|
         rewrite !registerUser_valid by done;
         rewrite !FindOne_user_start;
         destruct (outage env 0) eqn:?;
           [|destruct (List.find _ (users d)) eqn:?];
         simpl; try (destruct (outage env 1) eqn:?; simpl)]]|].

Ltac login_cases env d body :=
  let E := fresh "E" in let P := fresh "P" in
  destruct body as [[E P]|]; [|simpl];
  [destruct (decide (normalizeEmail E = "")) as [?|?];
     [rewrite !loginUser_blank by auto|
      destruct (decide (normalizeText P = "")) as [?|?];
        [rewrite !loginUser_blank by auto|
         destruct (outage env 0) eqn:?;
           [rewrite !loginUser_lost by done|
            rewrite !loginUser_valid by done;
            destruct (List.find _ (users d)) eqn:?; simpl;
            try case_bool_decide]]]|].

Ltac create_cases env d body :=
  let E := fresh "E" in let T := fresh "T" in
  destruct body as [[E T]|]; [|simpl];
  [destruct (decide (normalizeEmail E = "")) as [?|?];
     [rewrite !createTodo_blank by auto|
      destruct (decide (normalizeText T = "")) as [?|?];
        [rewrite !createTodo_blank by auto|
         rewrite !createTodo_valid by done;
         destruct (outage env 0) eqn:?; simpl;
           [|destruct (existsb _ (todos d)) eqn:?; simpl]]]|].

Ltac update_cases env d id body :=
  let objID := fresh "objID" in let input := fresh "input" in
  destruct (primitive.ObjectIDFromHex id) as [objID|] eqn:?;
    [|rewrite !updateTodo_invalid_id by done];
  [destruct body as [input|]; [|rewrite !(updateTodo_unbound _ _ _ objID) by done];
   [destruct (decide (normalizeText <$> UpdateInput_Title input = Some "")) as [?|?];
      [rewrite !(updateTodo_blank_title _ _ _ objID) by done|
       destruct (decide (UpdateInput_Title input = None
                         ∧ UpdateInput_Completed input = None)) as [[? ?]|?];
         [rewrite !(updateTodo_nothing _ _ _ objID) by done|
          rewrite !(updateTodo_valid _ _ _ objID)
            by (try done; by apply some_field);
          destruct (outage env 0) eqn:?;
            [|destruct (outage env 1) eqn:?;
                [|destruct (List.find _ _) eqn:?]]]]|]|].

Ltac delete_cases env d id :=
  let objID := fresh "objID" in
  destruct (primitive.ObjectIDFromHex id) as [objID|] eqn:?;
    [rewrite !(deleteTodo_valid _ _ _ objID) by done;
     destruct (outage env 0) eqn:?|
     rewrite !deleteTodo_invalid_id by done].

Ltac serve_cases env d req :=
  let body := fresh "body" in let id := fresh "id" in
  let email := fresh "email" in
  destruct req as [body|body| | | |email|body|id body|id|email];
    unfold serve, route;
    [register_cases env d body
    |login_cases env d body
    |unfold healthHandler, ret
    |rewrite !listUsers_eq;
       destruct (outage env 0) eqn:?; [|destruct (outage env 1) eqn:?]
    |rewrite !clearUsers_eq; destruct (outage env 0) eqn:?
    |rewrite !listTodos_eq;
       destruct (outage env 0) eqn:?; [|destruct (outage env 1) eqn:?]
    |create_cases env d body
    |update_cases env d id body
    |delete_cases env d id
    |rewrite !clearTodos_eq; destruct (outage env 0) eqn:?];
    simpl.

(** ** Identifiers *)

Section HexFacts.
Import primitive.

Lemma fromHexChar_hexDigit d : (d < 16)%N → fromHexChar (hexDigit d) = Some d.
Proof.
  intros Hd. rewrite <- (N2Nat.id d).
  assert (N.to_nat d < 16) as Hn by lia.
  remember (N.to_nat d) as n eqn:Heq. clear Heq Hd.
  do 16 (destruct n as [|n]; [reflexivity|]). lia.
Qed.

Lemma decodeHex_hexOf k n acc a :
  decodeHex (hexOf k n acc) a
  = decodeHex acc (a * 16 ^ N.of_nat k + n mod 16 ^ N.of_nat k)%N.
Proof.
  revert n acc a. induction k as [|k IH]; intros n acc a.
  - simpl. rewrite N.mod_1_r. f_equal. lia.
  - change (hexOf (S k) n acc)
      with (hexOf k (n / 16)%N (String (hexDigit (n mod 16)%N) acc)).
    rewrite IH.
    change (decodeHex (String (hexDigit (n mod 16)%N) acc) ?x)
      with (match fromHexChar (hexDigit (n mod 16)%N) with
            | Some d => decodeHex acc (16 * x + d)%N
            | None => None
            end).
    rewrite fromHexChar_hexDigit by (apply N.mod_upper_bound; lia).
    f_equal. rewrite Nat2N.inj_succ, N.pow_succ_r'.
    rewrite (N.Div0.mod_mul_r n 16 (16 ^ N.of_nat k)). lia.
Qed.

Lemma ObjectIDFromHex_Hex id :
  (id < 2 ^ 96)%N → ObjectIDFromHex (Hex id) = Some id.
Proof.
  intros Hid. unfold ObjectIDFromHex. rewrite bool_decide_eq_true_2 by reflexivity.
  unfold Hex. rewrite decodeHex_hexOf. simpl decodeHex. f_equal.
  change (16 ^ N.of_nat 24)%N with (2 ^ 96)%N.
  rewrite N.mod_small by done. lia.
Qed.

End HexFacts.

(** X4.  The identifier of a projection is a string of 24 characters that
    [ObjectIDFromHex] decodes to the identifier of the to-do, a 12-byte
    value: the string a client gets from one handler addresses the same
    to-do in the path of another, and two to-dos with different
    identifiers never get the same string. *)
Theorem response_id_decodes_to_the_id (t t' : Todo) :
  (Todo_ID t < 2 ^ 96)%N → (Todo_ID t' < 2 ^ 96)%N →
  String.length (TodoResponse_ID (toTodoResponse t)) = 24
  ∧ primitive.ObjectIDFromHex (TodoResponse_ID (toTodoResponse t)) = Some (Todo_ID t)
  ∧ (TodoResponse_ID (toTodoResponse t) = TodoResponse_ID (toTodoResponse t') →
     Todo_ID t = Todo_ID t').
Proof.
  intros Ht Ht'. split_and!.
  - reflexivity.
  - by apply ObjectIDFromHex_Hex.
  - simpl. intros Heq.
    pose proof (ObjectIDFromHex_Hex _ Ht) as H1.
    pose proof (ObjectIDFromHex_Hex _ Ht') as H2.
    rewrite Heq in H1. congruence.
Qed.

(** ** Creating, updating and deleting one to-do *)

Lemma deleteFirst_last_fresh id (l : list Todo) (t : Todo) :
  (∀ x, x ∈ l → Todo_ID x ≠ id) → Todo_ID t = id →
  deleteFirst {[ "_id" := VObjectID id ]} (l ++ [t]) = l.
Proof.
  intros Hl Ht. induction l as [|a l IH]; simpl.
  - by rewrite hits_todo_id, bool_decide_eq_true_2.
  - rewrite hits_todo_id, bool_decide_eq_false_2 by (apply Hl; left).
    f_equal. apply IH. intros x Hx. apply Hl. by right.
Qed.

Lemma updateFirst_absent id update (l : list Todo) :
  (∀ x, x ∈ l → Todo_ID x ≠ id) →
  updateFirst {[ "_id" := VObjectID id ]} update l = l.
Proof.
  intros Hl. induction l as [|a l IH]; simpl; [done|].
  rewrite hits_todo_id, bool_decide_eq_false_2 by (apply Hl; left).
  f_equal. apply IH. intros x Hx. apply Hl. by right.
Qed.

Lemma updateFirst_elem id update (l : list Todo) (t : Todo) :
  List.find (λ x, bool_decide (Todo_ID x = id)) l = Some t →
  applySet update t ∈ updateFirst {[ "_id" := VObjectID id ]} update l.
Proof.
  induction l as [|a l IH]; simpl; [done|].
  rewrite hits_todo_id. case_bool_decide as Ha.
  - intros [= ->]. left.
  - intros Hfind. right. by apply IH.
Qed.

Lemma updateFirst_length {A} `{Document A} filter update (l : list A) :
  length (updateFirst filter update l) = length l.
Proof.
  induction l as [|a l IH]; simpl; [done|].
  destruct (hits filter a); simpl; by rewrite ?IH.
Qed.

Lemma applySet_updateDocument input (t : Todo) :
  applySet (updateDocument input) t
  = mkTodo (Todo_ID t) (Todo_Email t)
      (default (Todo_Title t) (normalizeText <$> UpdateInput_Title input))
      (default (Todo_Completed t) (UpdateInput_Completed input))
      (Todo_CreatedAt t).
Proof.
  simpl.
  rewrite (updateDocument_other input "email"),
    (updateDocument_other input "createdAt") by done.
  rewrite updateDocument_title, updateDocument_completed.
  by destruct (UpdateInput_Title input), (UpdateInput_Completed input).
Qed.

(** X5.  The identifier in the response of [createTodo] addresses the new
    to-do: when both calls go through and the generated identifier is a
    12-byte value that is not taken, deleting by the identifier of the
    response is answered 200 and the database is again what it was
    before the creation. *)
Theorem create_then_delete_restores (env1 env2 : Env) (d : Database)
    (E T : string) :
  normalizeEmail E ≠ "" → normalizeText T ≠ "" →
  outage env1 0 = false → outage env2 0 = false →
  (NewObjectID env1 < 2 ^ 96)%N →
  (∀ t, t ∈ todos d → Todo_ID t ≠ NewObjectID env1) →
  let out1 := createTodo env1 (Some (mkCreateInput E T)) (start d) in
  ∃ created,
    out1.1 = JSON http.StatusCreated [("todo", ATodo created)]
    ∧ let out2 := deleteTodo env2 (TodoResponse_ID created) (start (db out1.2)) in
      out2.1 = JSON http.StatusOK [("message", AString "Tarea eliminada")]
      ∧ db out2.2 = d.
Proof.
  intros HE HT H1 H2 Hid Hfresh. cbv zeta.
  rewrite createTodo_valid by done. rewrite H1, existsb_id_fresh by done.
  cbn [orb fst snd db]. eexists. split; [reflexivity|].
  change (TodoResponse_ID (toTodoResponse (newTodo env1 E T)))
    with (primitive.Hex (NewObjectID env1)).
  rewrite (deleteTodo_valid _ _ _ (NewObjectID env1))
    by (by apply ObjectIDFromHex_Hex).
  rewrite H2. cbn [fst snd db users todos]. split; [reflexivity|].
  rewrite deleteFirst_last_fresh by done. by destruct d.
Qed.

(** X6.  Updating a to-do that exists succeeds: for a well-formed
    identifier that one to-do of a collection with unique identifiers
    has, and a body that passes the validation, when no call is lost the
    response is 200 with the projection of the to-do in which the
    supplied title, trimmed, and the supplied [completed] replace the
    old ones; this to-do is in the collection afterwards, which has as
    many to-dos as before. *)
Theorem update_existing_succeeds (env : Env) (d : Database) (idHex : string)
    (input : UpdateInput) (t : Todo) :
  primitive.ObjectIDFromHex idHex = Some (Todo_ID t) →
  t ∈ todos d → uniqueIDs d →
  normalizeText <$> UpdateInput_Title input ≠ Some "" →
  UpdateInput_Title input ≠ None ∨ UpdateInput_Completed input ≠ None →
  outage env 0 = false → outage env 1 = false →
  let out := updateTodo env idHex (Some input) (start d) in
  let updated :=
    mkTodo (Todo_ID t) (Todo_Email t)
      (default (Todo_Title t) (normalizeText <$> UpdateInput_Title input))
      (default (Todo_Completed t) (UpdateInput_Completed input))
      (Todo_CreatedAt t) in
  out.1 = JSON http.StatusOK [("todo", ATodo (toTodoResponse updated))]
  ∧ updated ∈ todos (db out.2)
  ∧ length (todos (db out.2)) = length (todos d).
Proof.
  intros Hid Ht Hunique Htitle Hsome H0 H1. cbv zeta.
  pose proof (find_key_NoDup Todo_ID _ _ t Hunique Ht eq_refl) as Hfind.
  rewrite (updateTodo_valid _ _ _ (Todo_ID t)) by done.
  rewrite H0, H1. simpl. rewrite find_updateFirst, Hfind. simpl.
  rewrite <- applySet_updateDocument. split_and!.
  - done.
  - by apply updateFirst_elem.
  - apply updateFirst_length.
Qed.

(** X7.  Updating a to-do that does not exist is an internal error, not a
    refusal: for a well-formed identifier no to-do has and a body that
    passes the validation, when the write is not lost the response is
    500 "Error al leer tarea actualizada", both calls are issued and the
    database is as before. *)
Theorem update_missing_is_an_internal_error (env : Env) (d : Database)
    (idHex : string) (objID : primitive.ObjectID) (input : UpdateInput) :
  primitive.ObjectIDFromHex idHex = Some objID →
  (∀ t, t ∈ todos d → Todo_ID t ≠ objID) →
  normalizeText <$> UpdateInput_Title input ≠ Some "" →
  UpdateInput_Title input ≠ None ∨ UpdateInput_Completed input ≠ None →
  outage env 0 = false →
  let out := updateTodo env idHex (Some input) (start d) in
  out.1 = JSON http.StatusInternalServerError
            [("error", AString "Error al leer tarea actualizada")]
  ∧ journal out.2
    = [CallUpdateByID "todos" objID (updateDocument input);
       CallFindOne "todos" {[ "_id" := VObjectID objID ]}]
  ∧ db out.2 = d.
Proof.
  intros Hid Habsent Htitle Hsome H0. cbv zeta.
  rewrite (updateTodo_valid _ _ _ objID) by done. rewrite H0.
  rewrite updateFirst_absent by done.
  assert ({| users := users d; todos := todos d |} = d) as -> by (by destruct d).
  destruct (outage env 1); [done|]. simpl.
  by rewrite (proj2 (find_key_None Todo_ID objID (todos d)) Habsent).
Qed.

(** X8.  [updateTodo] writes before it reads back, and a failure of the
    second call does not undo the first: when the write goes through and
    the read is lost, the response is 500 "Error al leer tarea
    actualizada" although the to-do has been updated in the
    collection. *)
Theorem update_applied_though_unread (env : Env) (d : Database) (idHex : string)
    (input : UpdateInput) (t : Todo) :
  primitive.ObjectIDFromHex idHex = Some (Todo_ID t) →
  t ∈ todos d → uniqueIDs d →
  normalizeText <$> UpdateInput_Title input ≠ Some "" →
  UpdateInput_Title input ≠ None ∨ UpdateInput_Completed input ≠ None →
  outage env 0 = false → outage env 1 = true →
  let out := updateTodo env idHex (Some input) (start d) in
  let updated :=
    mkTodo (Todo_ID t) (Todo_Email t)
      (default (Todo_Title t) (normalizeText <$> UpdateInput_Title input))
      (default (Todo_Completed t) (UpdateInput_Completed input))
      (Todo_CreatedAt t) in
  out.1 = JSON http.StatusInternalServerError
            [("error", AString "Error al leer tarea actualizada")]
  ∧ updated ∈ todos (db out.2).
Proof.
  intros Hid Ht Hunique Htitle Hsome H0 H1. cbv zeta.
  pose proof (find_key_NoDup Todo_ID _ _ t Hunique Ht eq_refl) as Hfind.
  rewrite (updateTodo_valid _ _ _ (Todo_ID t)) by done.
  rewrite H0, H1. simpl. split; [done|].
  rewrite <- applySet_updateDocument. by apply updateFirst_elem.
Qed.

(** ** Registering, logging in and listing users *)

Lemma find_app_absent {A} (f : A → bool) (l : list A) (x : A) :
  List.find f l = None → f x = true → List.find f (l ++ [x]) = Some x.
Proof.
  induction l as [|a l IH]; simpl; [by intros _ ->|].
  destruct (f a); [done|]. by apply IH.
Qed.

(** A registration answered 201, with the look-up not lost: the body
    passes the validation, no user had the email and the new user is the
    last of the collection. *)
Lemma registerUser_created env d E P :
  outage env 0 = false →
  (registerUser env (Some (mkUser E P)) (start d)).1
  = JSON http.StatusCreated [("message", AString "Usuario registrado con éxito")] →
  normalizeEmail E ≠ "" ∧ normalizeText P ≠ ""
  ∧ List.find (λ u, bool_decide (User_Email u = normalizeEmail E)) (users d) = None
  ∧ db (registerUser env (Some (mkUser E P)) (start d)).2
    = {| users := users d ++ [mkUser (normalizeEmail E) (normalizeText P)];
         todos := todos d |}.
Proof.
  intros H0.
  destruct (decide (normalizeEmail E = "")) as [HE|HE];
    [by rewrite registerUser_blank by auto|].
  destruct (decide (normalizeText P = "")) as [HP|HP];
    [by rewrite registerUser_blank by auto|].
  rewrite registerUser_valid by done. rewrite FindOne_user_start, H0. simpl.
  destruct (List.find _ (users d)); [done|].
  by destruct (outage env 1).
Qed.

(** X9.  What [registerUser] stores is what [loginUser] accepts: after a
    registration answered 201 whose look-up was not lost, a login whose
    email has the same normal form and whose password has the same
    trimmed form is answered 200, and a login with the email and a
    password whose trimmed form is another, not empty, is answered 401
    "Password incorrecto". *)
Theorem register_then_login (env1 env2 : Env) (d : Database)
    (E P E' P' : string) :
  outage env1 0 = false → outage env2 0 = false →
  let out1 := registerUser env1 (Some (mkUser E P)) (start d) in
  out1.1 = JSON http.StatusCreated
             [("message", AString "Usuario registrado con éxito")] →
  normalizeEmail E' = normalizeEmail E →
  let login := (loginUser env2 (Some (mkUser E' P')) (start (db out1.2))).1 in
  (normalizeText P' = normalizeText P →
     login = JSON http.StatusOK [("message", AString "Login exitoso")])
  ∧ (normalizeText P' ≠ "" → normalizeText P' ≠ normalizeText P →
       login = JSON http.StatusUnauthorized
                 [("error", AString "Password incorrecto")]).
Proof.
  intros H1 H2 out1 Hcreated HE' login. subst out1 login.
  destruct (registerUser_created env1 d E P H1 Hcreated)
    as (HE & HP & Hfree & ->).
  assert (List.find (λ u, bool_decide (User_Email u = normalizeEmail E'))
            (users d ++ [mkUser (normalizeEmail E) (normalizeText P)])
          = Some (mkUser (normalizeEmail E) (normalizeText P))) as Hfind.
  { rewrite HE'. apply find_app_absent; [done|]. by apply bool_decide_eq_true_2. }
  split.
  - intros HP'. rewrite loginUser_valid by congruence. simpl.
    rewrite Hfind. simpl. by rewrite bool_decide_eq_false_2 by (by rewrite HP'; auto).
  - intros Hnonempty Hother. rewrite loginUser_valid by congruence. simpl.
    rewrite Hfind. simpl. by rewrite bool_decide_eq_true_2 by congruence.
Qed.

(** X10.  [loginUser] never answers 500 or 409: its status is 200, 400 or
    401 whatever the body, the database and the environment.  A look-up
    that is lost is reported as an unknown user: for a body that passes
    the validation the response is then 401 "Usuario no encontrado",
    whether or not the user is registered, and the database is as
    before. *)
Theorem login_reports_a_lost_lookup_as_unknown_user (env : Env) (d : Database)
    (body : option User) :
  let out := loginUser env body (start d) in
  (code out.1 = http.StatusOK ∨ code out.1 = http.StatusBadRequest
   ∨ code out.1 = http.StatusUnauthorized)
  ∧ (∀ E P, body = Some (mkUser E P) →
       normalizeEmail E ≠ "" → normalizeText P ≠ "" → outage env 0 = true →
       out.1 = JSON http.StatusUnauthorized
                 [("error", AString "Usuario no encontrado")]
       ∧ db out.2 = d).
Proof.
  cbv zeta. split.
  - login_cases env d body; simpl; auto.
  - intros E P -> HE HP Hlost. by rewrite loginUser_lost.
Qed.

(** X11.  [listUsers] returns the stored users as they are stored,
    password included: after a registration answered 201 whose look-up
    was not lost, listing the users with no call lost is answered 200
    with the users of before followed by the new user, whose email is
    normalised and whose password is the trimmed password in clear. *)
Theorem register_then_list_users (env1 env2 : Env) (d : Database) (E P : string) :
  outage env1 0 = false →
  outage env2 0 = false → outage env2 1 = false →
  let out1 := registerUser env1 (Some (mkUser E P)) (start d) in
  out1.1 = JSON http.StatusCreated
             [("message", AString "Usuario registrado con éxito")] →
  (listUsers env2 (start (db out1.2))).1
  = JSON http.StatusOK
      [("users",
        AUsers (users d ++ [mkUser (normalizeEmail E) (normalizeText P)]))].
Proof.
  intros H1 H20 H21 out1 Hcreated. subst out1.
  destruct (registerUser_created env1 d E P H1 Hcreated) as (_ & _ & _ & ->).
  by rewrite listUsers_eq, H20, H21.
Qed.

(** X12.  [clearUsers] deletes every user and no to-do.  When its call is
    lost the response is 500 and the database is as before.  Otherwise
    the response is 200, no user is left and the to-dos are untouched,
    whoever owned them; after it a login that passes the validation is
    answered 401 "Usuario no encontrado" and a registration that passes
    it is answered 201. *)
Theorem clearUsers_empties_users_only (env : Env) (d : Database) :
  let out := clearUsers env (start d) in
  (outage env 0 = true →
     out.1 = JSON http.StatusInternalServerError
               [("error", AString "Error al limpiar usuarios")]
     ∧ db out.2 = d)
  ∧ (outage env 0 = false →
       out.1 = JSON http.StatusOK
                 [("message", AString "Todos los usuarios han sido eliminados")]
       ∧ users (db out.2) = []
       ∧ todos (db out.2) = todos d
       ∧ ∀ env' E P,
           normalizeEmail E ≠ "" → normalizeText P ≠ "" →
           outage env' 0 = false →
           (loginUser env' (Some (mkUser E P)) (start (db out.2))).1
           = JSON http.StatusUnauthorized
               [("error", AString "Usuario no encontrado")]
           ∧ (outage env' 1 = false →
                (registerUser env' (Some (mkUser E P)) (start (db out.2))).1
                = JSON http.StatusCreated
                    [("message", AString "Usuario registrado con éxito")])).
Proof.
  cbv zeta. rewrite clearUsers_eq. split.
  - by intros ->.
  - intros ->. cbn [fst snd db users todos]. split_and!; try done.
    intros env' E P HE HP H0. split.
    + by rewrite loginUser_valid.
    + intros H1. rewrite registerUser_valid by done.
      by rewrite FindOne_user_start, H0, H1.
Qed.

(** ** Listing and clearing to-dos *)

Lemma listTodos_filtered env d email :
  email ≠ "" → outage env 0 = false → outage env 1 = false →
  listTodos env email (start d)
  = (JSON http.StatusOK
       [("todos",
         ATodos (toTodoResponse
                   <$> filter (λ t, Todo_Email t = normalizeEmail email) (todos d)))],
     {| db := d;
        journal := [CallFind "todos" {[ "email" := VString (normalizeEmail email) ]};
                    CallAll "todos"] |}).
Proof.
  intros Hemail H0 H1. rewrite listTodos_up by done.
  unfold listFilter. rewrite bool_decide_eq_true_2 by done.
  rewrite (List_filter_Prop _ (λ t, Todo_Email t = normalizeEmail email)); [done|].
  intros t. by rewrite hits_todo_email, bool_decide_eq_true.
Qed.

(** X13.  With a query that is not empty and no call lost, [listTodos]
    answers 200 with the projections, in the order of the collection, of
    exactly the to-dos whose stored owner is the normal form of the
    query; the database is as before, and another query that is not
    empty and has the same normal form gets the same response. *)
Theorem listTodos_by_owner (env : Env) (d : Database) (email : string) :
  email ≠ "" → outage env 0 = false → outage env 1 = false →
  let out := listTodos env email (start d) in
  out.1 = JSON http.StatusOK
            [("todos",
              ATodos (toTodoResponse
                        <$> filter (λ t, Todo_Email t = normalizeEmail email)
                              (todos d)))]
  ∧ db out.2 = d
  ∧ ∀ email', email' ≠ "" → normalizeEmail email' = normalizeEmail email →
      (listTodos env email' (start d)).1 = out.1.
Proof.
  intros Hemail H0 H1. cbv zeta. rewrite !listTodos_filtered by done.
  split_and!; try done.
  intros email' Hemail' Hsame.
  rewrite listTodos_filtered by done.
  cbn [fst]. by rewrite Hsame.
Qed.

(** X14.  [createTodo] asks nothing about the owner: for a body that
    passes the validation, when the insert goes through with an
    identifier that is not taken, the one call issued is the insert on
    the to-dos, whatever users are registered; the response is 201 with
    the projection of the new to-do, which has the normalised owner, the
    trimmed title, [completed] false and the time of the request, and
    the to-do is added at the end of the collection with this time cut
    to whole milliseconds. *)
Theorem createTodo_appends_for_any_owner (env : Env) (d : Database)
    (E T : string) :
  normalizeEmail E ≠ "" → normalizeText T ≠ "" → outage env 0 = false →
  (∀ t, t ∈ todos d → Todo_ID t ≠ NewObjectID env) →
  let out := createTodo env (Some (mkCreateInput E T)) (start d) in
  let todo := mkTodo (NewObjectID env) (normalizeEmail E) (normalizeText T)
                false (now env) in
  let stored := mkTodo (NewObjectID env) (normalizeEmail E) (normalizeText T)
                  false (now env / 1000000 * 1000000) in
  out.1 = JSON http.StatusCreated [("todo", ATodo (toTodoResponse todo))]
  ∧ db out.2 = {| users := users d; todos := todos d ++ [stored] |}
  ∧ journal out.2 = [CallInsertOne "todos" (marshal todo)]
  ∧ marshal todo !! "createdAt" = Some (VDateTime (now env / 1000000)%Z).
Proof.
  intros HE HT H0 Hfresh. cbv zeta.
  rewrite createTodo_valid by done. by rewrite H0, existsb_id_fresh.
Qed.

(** X15.  Clearing the to-dos of an owner, given as stored, and listing
    them: when no call is lost, after [clearTodos] with an owner that is
    not empty, [listTodos] with any query whose normal form is this
    owner is answered 200 with the empty list, and every to-do of
    another owner is still in the collection. *)
Theorem clear_then_list_is_empty (env1 env2 : Env) (d : Database)
    (owner query : string) :
  owner ≠ "" → query ≠ "" → normalizeEmail query = owner →
  outage env1 0 = false → outage env2 0 = false → outage env2 1 = false →
  let out1 := clearTodos env1 owner (start d) in
  (listTodos env2 query (start (db out1.2))).1
  = JSON http.StatusOK [("todos", ATodos [])]
  ∧ ∀ t, t ∈ todos d → Todo_Email t ≠ owner → t ∈ todos (db out1.2).
Proof.
  intros Howner Hquery Hnorm H1 H20 H21. cbv zeta.
  rewrite clearTodos_eq, H1. simpl.
  unfold clearFilter. rewrite bool_decide_eq_true_2 by done.
  rewrite (List_filter_Prop _ (λ t, Todo_Email t ≠ owner)).
  2:{ intros t. rewrite hits_todo_email.
      by rewrite negb_true_iff, bool_decide_eq_false. }
  split.
  - rewrite listTodos_filtered by done. simpl. rewrite Hnorm.
    rewrite count_key_absent; [done|].
    by intros t [Ht _]%list_elem_of_filter.
  - intros t Ht Hother. by apply list_elem_of_filter.
Qed.

(** ** Every request *)

Ltac status_codes :=
  cbv [http.StatusOK http.StatusCreated http.StatusBadRequest
       http.StatusUnauthorized http.StatusConflict
       http.StatusInternalServerError code] in *.

(** X16.  Every response of every handler is of one of two shapes: a
    status 200 or 201 with an object that is not an error, or a status
    400, 401, 409 or 500 with the object of the one key [error] and a
    message. *)
Theorem every_response_is_a_payload_or_an_error (env : Env) (req : Request)
    (d : Database) :
  let r := (serve env req d).1 in
  ((code r = http.StatusOK ∨ code r = http.StatusCreated) ∧ ¬ isError r)
  ∨ ((code r = http.StatusBadRequest ∨ code r = http.StatusUnauthorized
      ∨ code r = http.StatusConflict ∨ code r = http.StatusInternalServerError)
     ∧ isError r).
Proof.
  cbv zeta. serve_cases env d req.
  all: first [ left; split; [auto 10|by intros [? ?]]
             | right; split; [auto 10|by eexists] ].
Qed.

(** X17.  A handler that refuses a request has not written: a response
    with status 400 comes with no call to the store at all, and a
    response with status 401 or 409 with no write; in both cases the
    database is as before. *)
Theorem refusals_leave_the_store_alone (env : Env) (req : Request)
    (d : Database) :
  let out := serve env req d in
  (code out.1 = http.StatusBadRequest → journal out.2 = [] ∧ db out.2 = d)
  ∧ (code out.1 = http.StatusUnauthorized ∨ code out.1 = http.StatusConflict →
       Forall (λ c, isWrite c = false) (journal out.2) ∧ db out.2 = d).
Proof.
  cbv zeta. serve_cases env d req.
  all: split; [intros Hcode|intros [Hcode|Hcode]]; status_codes;
    try discriminate Hcode.
  all: split; [by repeat constructor|done].
Qed.

(** X18.  No handler issues more than two calls to the store for a
    request, and no handler issues more than one write. *)
Theorem at_most_two_calls_and_one_write (env : Env) (req : Request)
    (d : Database) :
  let calls := journal (serve env req d).2 in
  length calls ≤ 2 ∧ length (List.filter isWrite calls) ≤ 1.
Proof.
  cbv zeta. serve_cases env d req.
  all: simpl; lia.
Qed.

(** X19.  What a request can change.  A login, a health check and the two
    listings change nothing and issue no write, whatever the
    environment; and no request changes both collections: a request
    that changes the users leaves the to-dos as they were, and
    conversely. *)
Theorem a_request_changes_one_collection_at_most (env : Env) (req : Request)
    (d : Database) :
  let out := serve env req d in
  (readOnly req = true →
     db out.2 = d ∧ Forall (λ c, isWrite c = false) (journal out.2))
  ∧ (users (db out.2) = users d ∨ todos (db out.2) = todos d).
Proof.
  cbv zeta. serve_cases env d req.
  all: split;
    [first [discriminate|intros _; split; [done|by repeat constructor]]|].
  all: (by left) || (by right).
Qed.

(** ** What the collections hold *)

Lemma validUser_new E P :
  normalizeEmail E ≠ "" → normalizeText P ≠ "" →
  validUser (mkUser (normalizeEmail E) (normalizeText P)).
Proof.
  intros HE HP. unfold validUser; simpl. split_and!; eauto.
Qed.

Lemma validTodo_new env E T :
  normalizeEmail E ≠ "" → normalizeText T ≠ "" →
  validTodo (insertedTodo env E T).
Proof.
  intros HE HT. unfold validTodo; simpl. split_and!; eauto.
Qed.

Lemma validTodo_applySet input (t : Todo) :
  normalizeText <$> UpdateInput_Title input ≠ Some "" →
  validTodo t → validTodo (applySet (updateDocument input) t).
Proof.
  intros Htitle (He & He' & Ht & Ht'). rewrite applySet_updateDocument.
  unfold validTodo; simpl. split_and!; [done|done| |].
  - destruct (UpdateInput_Title input) as [title|]; simpl in *; [|done].
    intros Hblank. apply Htitle. by rewrite Hblank.
  - destruct (UpdateInput_Title input) as [title|]; simpl; [|done].
    by exists title.
Qed.

Lemma updateFirst_Forall {A} `{Document A} (P : A → Prop) filter update
    (l : list A) :
  (∀ x, P x → P (applySet update x)) →
  Forall P l → Forall P (updateFirst filter update l).
Proof.
  intros Hset Hl. induction Hl as [|a l Ha Hl IH]; simpl; [done|].
  destruct (hits filter a); constructor; auto.
Qed.

Lemma Forall_of_sublist {A} (P : A → Prop) (l k : list A) :
  l `sublist_of` k → Forall P k → Forall P l.
Proof.
  intros Hsub Hk. rewrite Forall_forall in *.
  intros x Hx. apply Hk. by eapply elem_of_sublist.
Qed.

Lemma serve_validUsers env req d :
  Forall validUser (users d) → Forall validUser (users (db (serve env req d).2)).
Proof.
  intros Hd. serve_cases env d req; try done.
  all: try (apply Forall_app; split; [done|];
            apply Forall_singleton; by apply validUser_new).
Qed.

Lemma serve_validTodos env req d :
  Forall validTodo (todos d) → Forall validTodo (todos (db (serve env req d).2)).
Proof.
  intros Hd. serve_cases env d req; try done.
  all: first
    [ apply Forall_app; split; [done|];
      apply Forall_singleton; by apply validTodo_new
    | apply updateFirst_Forall; [|done]; intros x; by apply validTodo_applySet
    | eapply Forall_of_sublist; [apply deleteFirst_sublist|done]
    | eapply Forall_of_sublist; [apply List_filter_sublist|done] ].
Qed.

(** X20.  The users the handlers store are valid, whatever fails: if
    every stored user has an email that is not empty and is the normal
    form of some email, and a password that is not empty and is the
    trimmed form of some text, so does every stored user after any
    sequence of requests, in any environments. *)
Theorem stored_users_stay_valid (reqs : list (Env * Request)) (d : Database) :
  Forall validUser (users d) → Forall validUser (users (serveAll reqs d)).
Proof.
  revert d. induction reqs as [|[env req] reqs IH]; intros d Hd; simpl; [done|].
  by apply IH, serve_validUsers.
Qed.

(** X21.  The to-dos the handlers store are valid, whatever fails: if
    every stored to-do has an owner that is not empty and is the normal
    form of some email, and a title that is not empty and is the trimmed
    form of some text, so does every stored to-do after any sequence of
    requests, in any environments; an update cannot blank a title nor
    store one it has not trimmed. *)
Theorem stored_todos_stay_valid (reqs : list (Env * Request)) (d : Database) :
  Forall validTodo (todos d) → Forall validTodo (todos (serveAll reqs d)).
Proof.
  revert d. induction reqs as [|[env req] reqs IH]; intros d Hd; simpl; [done|].
  by apply IH, serve_validTodos.
Qed.

(** X22.  No handler modifies or removes one user: after a request the
    users of before are the first users of the collection, unchanged and
    in their order, unless the request is the clearing of all users, so
    a stored password never changes. *)
Theorem users_are_only_appended_or_cleared (env : Env) (req : Request)
    (d : Database) :
  let d' := db (serve env req d).2 in
  users d `prefix_of` users d' ∨ (req = DELETE_users ∧ users d' = []).
Proof.
  cbv zeta. serve_cases env d req.
  all: first [ by left | left; by apply prefix_app_r | by right ].
Qed.

Lemma updateFirst_origin {A} `{Document A} filter update (l : list A) (x' : A) :
  x' ∈ updateFirst filter update l →
  ∃ x, x ∈ l ∧ (x' = x ∨ x' = applySet update x).
Proof.
  induction l as [|a l IH]; simpl; [by intros ?%elem_of_nil|].
  destruct (hits filter a).
  - intros [->|Hx]%elem_of_cons.
    + exists a. split; [left|by right].
    + exists x'. split; [by right|by left].
  - intros [->|Hx]%elem_of_cons.
    + exists a. split; [left|by left].
    + destruct (IH Hx) as (x & Hin & Hx'). exists x. split; [by right|done].
Qed.

(** X23.  No handler rewrites the identity of a to-do: after any request,
    in any environment, every stored to-do either has the identifier,
    the owner and the creation time of a to-do stored before, or is the
    to-do a create request has just inserted, with the generated
    identifier, the time of the request in whole milliseconds and
    [completed] false. *)
Theorem todo_identity_is_never_rewritten (env : Env) (req : Request)
    (d : Database) (t' : Todo) :
  t' ∈ todos (db (serve env req d).2) →
  (∃ t, t ∈ todos d ∧ Todo_ID t' = Todo_ID t ∧ Todo_Email t' = Todo_Email t
        ∧ Todo_CreatedAt t' = Todo_CreatedAt t)
  ∨ (∃ body, req = POST_todos body ∧ Todo_ID t' = NewObjectID env
       ∧ Todo_CreatedAt t' = (now env / 1000000 * 1000000)%Z
       ∧ Todo_Completed t' = false).
Proof.
  assert (∀ l : list Todo, t' ∈ l → l `sublist_of` todos d →
          ∃ t, t ∈ todos d ∧ Todo_ID t' = Todo_ID t ∧ Todo_Email t' = Todo_Email t
               ∧ Todo_CreatedAt t' = Todo_CreatedAt t) as Hsub.
  { intros l Hl Hsub. exists t'. split; [by eapply elem_of_sublist|done]. }
  assert (∀ objID input,
          t' ∈ updateFirst {[ "_id" := VObjectID objID ]} (updateDocument input)
                 (todos d) →
          ∃ t, t ∈ todos d ∧ Todo_ID t' = Todo_ID t ∧ Todo_Email t' = Todo_Email t
               ∧ Todo_CreatedAt t' = Todo_CreatedAt t) as Hupdated.
  { intros objID input (t & Ht & [->| ->])%updateFirst_origin;
      exists t; [done|]. by rewrite applySet_updateDocument. }
  serve_cases env d req; intros Hin.
  all: try (left; by apply (Hsub (todos d))).
  all: try (left; by eapply Hupdated).
  all: try (left; eapply Hsub; [exact Hin|];
            first [apply deleteFirst_sublist|apply List_filter_sublist]).
  apply elem_of_app in Hin as [Hin|Hin]; [left; by apply (Hsub (todos d))|].
  apply list_elem_of_singleton in Hin as ->. right. by eexists.
Qed.

(** ** The normalisation of ASCII text *)

(** X1.  On ASCII text, normalising twice is normalising once, for an
    email and for a text, and a normalised email is also a normalised
    text: what a handler stores is a fixed point of the normalisation
    the next handler applies to it. *)
Theorem normalization_is_idempotent (s : string) :
  ASCII.isASCII s = true →
  normalizeEmail (normalizeEmail s) = normalizeEmail s
  ∧ normalizeText (normalizeText s) = normalizeText s
  ∧ normalizeText (normalizeEmail s) = normalizeEmail s
  ∧ strings.ToLower (normalizeEmail s) = normalizeEmail s.
Proof.
  intros Hs.
  pose proof (isASCII_TrimSpace s Hs) as Ht.
  assert (ASCII.isASCII (ASCII.ToLower (ASCII.TrimSpace s)) = true) as Hl
    by by rewrite isASCII_ToLower.
  rewrite (normalizeEmail_ASCII s Hs), (normalizeText_ASCII s Hs).
  rewrite (normalizeEmail_ASCII _ Hl), !(normalizeText_ASCII _ Ht).
  rewrite (normalizeText_ASCII _ Hl), (strings.ToLower_ASCII _ Hl).
  rewrite !TrimSpace_ToLower, !TrimSpace_idem, !ToLower_idem. done.
Qed.

(** X2.  [normalizeEmail] ignores ASCII white space around an ASCII
    email and the case of its letters: two emails with the same
    lower-case form, one of them padded on both sides, have the same
    normal form. *)
Theorem normalizeEmail_ignores_case_and_padding (pre post s s' : string) :
  ASCII.allSpace pre = true → ASCII.allSpace post = true →
  ASCII.isASCII s = true → ASCII.isASCII s' = true →
  strings.ToLower s = strings.ToLower s' →
  normalizeEmail (pre +:+ s +:+ post) = normalizeEmail s'.
Proof.
  intros Hpre Hpost Hs Hs' Hcase.
  rewrite !strings.ToLower_ASCII in Hcase by done.
  rewrite normalizeEmail_ASCII
    by by rewrite !isASCII_app, Hs, !allSpace_isASCII.
  rewrite (normalizeEmail_ASCII s' Hs').
  rewrite <- !TrimSpace_ToLower, <- Hcase, !TrimSpace_ToLower. f_equal.
  unfold ASCII.TrimSpace at 1. rewrite TrimLeft_app_l by done.
  by apply TrimSpace_app_r.
Qed.

(** X3.  On ASCII text [normalizeText] removes the white space at both
    ends and nothing else: the text is its normal form between two runs
    of white space, and the normal form neither starts nor ends with
    white space. *)
Theorem normalizeText_strips_the_ends (s : string) :
  ASCII.isASCII s = true →
  ∃ pre post,
    s = pre +:+ normalizeText s +:+ post
    ∧ ASCII.allSpace pre = true ∧ ASCII.allSpace post = true
    ∧ ASCII.leftTrimmed (normalizeText s)
    ∧ ASCII.endsWithSpace (normalizeText s) = false.
Proof.
  intros Hs. rewrite (normalizeText_ASCII s Hs).
  destruct (TrimLeft_split s) as (pre & Hpre & Heq).
  destruct (TrimRight_split (ASCII.TrimLeft s)) as (post & Hpost & Ht).
  exists pre, post. unfold ASCII.TrimSpace. split_and!.
  - by rewrite <- Ht.
  - done.
  - done.
  - apply TrimRight_leftTrimmed, TrimLeft_leftTrimmed.
  - apply TrimRight_endsWithSpace.
Qed.

End Properties.

(** * The handlers on ASCII text *)

(** From here on [strings.TrimSpace] and [strings.ToLower] are the
    functions of [ASCII], and the strings of the examples are ASCII. *)
#[local] Existing Instance strings.forASCII.

(** ** Examples, instances and counterexamples *)


(** The password is compared as it is: changing the case of a letter
    turns a login that succeeds into one that fails. *)
Example login_password_case_sensitive :
  let d := {| users := [alice]; todos := [] |} in
  (loginUser (calm 0 1) (Some (mkUser "a@b.com" "pw1")) (start d)).1
  = JSON http.StatusOK [("message", AString "Login exitoso")]
  ∧ (loginUser (calm 0 1) (Some (mkUser "a@b.com" "PW1")) (start d)).1
    = JSON http.StatusUnauthorized [("error", AString "Password incorrecto")].
Proof. split; vm_compute; reflexivity. Qed.


Lemma register_twice_witness :
  let env := calm 0 1 in
  let d1 := db (registerUser env (Some (mkUser " A@B.com" "pw1"))
                  (start emptyDatabase)).2 in
  let out2 := registerUser env (Some (mkUser "a@b.COM " "pw2")) (start d1) in
  (outage env 0 = false ∧ outage env 1 = false ∧ uniqueEmails emptyDatabase
   ∧ normalizeEmail " A@B.com" ≠ "" ∧ normalizeText "pw1" ≠ ""
   ∧ normalizeText "pw2" ≠ "")
  ∧ users (db out2.2) = [alice]
  ∧ out2.1 = JSON http.StatusConflict [("error", AString "Usuario ya existe")].
Proof.
  assert (uniqueEmails emptyDatabase) as Hempty by apply NoDup_nil_2.
  pose proof (register_twice (calm 0 1) (calm 0 1) emptyDatabase
                " A@B.com" "pw1" "pw2" eq_refl eq_refl eq_refl Hempty) as H.
  cbv zeta in *. split; [by split_and!|].
  split; [by vm_compute|].
  apply H; by vm_compute.
Defined.

(** C2 as the claim words it fails in two places.  With a password that is
    empty after trimming, both registrations are refused by the
    validation: the second response is the 400 and no user is stored.
    And from a database that already holds two users with the email, two
    users with the email remain. *)
Lemma registering_twice_can_leave_none_or_two :
  (let d1 := db (registerUser (calm 0 1) (Some (mkUser "a@b.com" "  "))
                   (start emptyDatabase)).2 in
   let out2 := registerUser (calm 0 2) (Some (mkUser "a@b.com" "  ")) (start d1) in
   normalizeEmail "a@b.com" ≠ ""
   ∧ code out2.1 = http.StatusBadRequest
   ∧ code out2.1 ≠ http.StatusConflict
   ∧ users (db out2.2) = [])
  ∧ (let d := {| users := [alice; mkUser "a@b.com" "pw2"]; todos := [] |} in
     let d1 := db (registerUser (calm 0 1) (Some (mkUser "a@b.com" "pw3"))
                     (start d)).2 in
     let out2 := registerUser (calm 0 2) (Some (mkUser "a@b.com" "pw3")) (start d1) in
     length (filter (λ u, User_Email u = normalizeEmail "a@b.com")
               (users (db out2.2))) = 2).
Proof. split; [split_and!|]; by vm_compute. Qed.

Lemma createTodo_blank_refused_witness :
  let d := {| users := [alice]; todos := [] |} in
  let out := createTodo (calm 7 9) (Some (mkCreateInput "a@b.com" "   ")) (start d) in
  (normalizeText "   " = "" ∨ normalizeEmail "a@b.com" = "")
  ∧ code out.1 = http.StatusBadRequest
  ∧ journal out.2 = []
  ∧ db out.2 = d.
Proof.
  assert (normalizeText "   " = "" ∨ normalizeEmail "a@b.com" = "") as Hblank
    by (left; reflexivity).
  split; [exact Hblank|].
  destruct (createTodo_blank_refused (calm 7 9)
              {| users := [alice]; todos := [] |} "a@b.com" "   " Hblank)
    as (Hresp & Hjournal & Hdb).
  split; [|split]; [|exact Hjournal|exact Hdb].
  cbv zeta. by rewrite Hresp.
Defined.

Lemma create_then_list_witness :
  let env := calm 7000123 9 in
  let d := {| users := [alice];
              todos := [mkTodo 3 "c@d.com" "walk" true 5000000] |} in
  let out1 := createTodo env (Some (mkCreateInput "a@b.com" "buy milk")) (start d) in
  (outage env 0 = false ∧ outage env 1 = false
   ∧ ∀ t, t ∈ todos d → Todo_ID t ≠ NewObjectID env)
  ∧ out1.1 = JSON http.StatusCreated
             [("todo", ATodo (mkTodoResponse "000000000000000000000009"
                                "a@b.com" "buy milk" false 7000123))]
  ∧ (listTodos env "A@B.COM " (start (db out1.2))).1
    = JSON http.StatusOK
        [("todos", ATodos [mkTodoResponse "000000000000000000000009"
                             "a@b.com" "buy milk" false 7000000])].
Proof.
  assert (∀ t, t ∈ [mkTodo 3 "c@d.com" "walk" true 5000000] → Todo_ID t ≠ 9%N) as Hfresh.
  { intros t Ht. apply list_elem_of_singleton in Ht as ->. done. }
  destruct (create_then_list (calm 7000123 9) (calm 7000123 9)
              {| users := [alice]; todos := [mkTodo 3 "c@d.com" "walk" true 5000000] |}
              eq_refl eq_refl eq_refl Hfresh) as (Hresp & _).
  cbv zeta. split; [by split_and!|]. split.
  - exact Hresp.
  - by vm_compute.
Defined.

Lemma updateTodo_frame_witness :
  let d := house in
  let body := Some {| UpdateInput_Title := None;
                      UpdateInput_Completed := Some true |} in
  let out := updateTodo (calm 8 10) "000000000000000000000009" body (start d) in
  out.1 = JSON http.StatusOK
            [("todo", ATodo (mkTodoResponse "000000000000000000000009"
                               "a@b.com" "buy milk" true 7000000))]
  ∧ TodoResponse_Completed
      (mkTodoResponse "000000000000000000000009" "a@b.com" "buy milk" true 7000000)
    = true
  ∧ users (db out.2) = [alice].
Proof.
  cbv zeta.
  destruct (updateTodo_frame (calm 8 10)
              house
              "000000000000000000000009"
              (Some {| UpdateInput_Title := None;
                       UpdateInput_Completed := Some true |}))
    as (Husers & _ & Hwritten).
  assert ((updateTodo (calm 8 10) "000000000000000000000009"
             (Some {| UpdateInput_Title := None;
                      UpdateInput_Completed := Some true |})
             (start house)).1
          = JSON http.StatusOK
              [("todo", ATodo (mkTodoResponse "000000000000000000000009"
                                 "a@b.com" "buy milk" true 7000000))]) as Hresp
    by (vm_compute; reflexivity).
  split; [exact Hresp|]. split; [|exact Husers].
  exact (proj2 (Hwritten _ Hresp) true eq_refl).
Defined.

Lemma updateTodo_refusals_witness :
  let d := {| users := [alice];
              todos := [mkTodo 9 "a@b.com" "buy milk" false 7000000] |} in
  let session body id := (updateTodo (calm 8 10) id body (start d)).2 in
  (primitive.ObjectIDFromHex "xyz" = None
   ∧ session None "xyz" = start d)
  ∧ (primitive.ObjectIDFromHex "000000000000000000000009" = Some 9%N
     ∧ normalizeText "  " = ""
     ∧ session (Some (mkUpdateInput (Some "  ") (Some true)))
         "000000000000000000000009" = start d)
  ∧ session (Some (mkUpdateInput None None)) "000000000000000000000009" = start d.
Proof.
  cbv zeta.
  pose (d := {| users := [alice];
                todos := [mkTodo 9 "a@b.com" "buy milk" false 7000000] |}).
  assert (∀ s : Session, journal s = [] → db s = d → s = start d) as Hsame.
  { intros [? ?]; simpl. by intros -> ->. }
  split; [split; [reflexivity|]|split; [split; [reflexivity|split; [reflexivity|]]|]].
  - destruct (updateTodo_refusals (calm 8 10) d "xyz" None) as (H & _ & _).
    destruct (H eq_refl) as (_ & Hj & Hd). by apply Hsame.
  - destruct (updateTodo_refusals (calm 8 10) d "000000000000000000000009"
                (Some (mkUpdateInput (Some "  ") (Some true)))) as (_ & H & _).
    destruct (H 9%N _ "  " eq_refl eq_refl eq_refl eq_refl) as (_ & Hj & Hd).
    by apply Hsame.
  - destruct (updateTodo_refusals (calm 8 10) d "000000000000000000000009"
                (Some (mkUpdateInput None None))) as (_ & _ & H).
    destruct (H 9%N _ eq_refl eq_refl eq_refl eq_refl) as (_ & Hj & Hd).
    by apply Hsame.
Defined.

Lemma deleteTodo_idempotent_witness :
  let d := house in
  let gone := deleteTodo (calm 8 10) "000000000000000000000009" (start d) in
  let absent := deleteTodo (calm 8 10) "00000000000000000000000A" (start d) in
  (primitive.ObjectIDFromHex "000000000000000000000009" = Some 9%N
   ∧ primitive.ObjectIDFromHex "00000000000000000000000A" = Some 10%N
   ∧ outage (calm 8 10) 0 = false ∧ uniqueIDs d)
  ∧ gone.1 = JSON http.StatusOK [("message", AString "Tarea eliminada")]
  ∧ absent.1 = gone.1
  ∧ ∀ t, t ∈ todos (db gone.2) → Todo_ID t ≠ 9%N.
Proof.
  cbv zeta.
  pose (d := house).
  assert (uniqueIDs d) as Hunique.
  { unfold uniqueIDs, d; simpl. apply NoDup_cons. split.
    - intros Hin. apply list_elem_of_singleton in Hin. discriminate.
    - apply NoDup_singleton. }
  destruct (deleteTodo_idempotent (calm 8 10) (calm 8 10) d
              "000000000000000000000009") as [_ Hgone].
  destruct (Hgone 9%N eq_refl eq_refl) as (Hresp & _ & Hafter).
  destruct (deleteTodo_idempotent (calm 8 10) (calm 8 10) d
              "00000000000000000000000A") as [_ Habsent].
  destruct (Habsent 10%N eq_refl eq_refl) as (Hresp' & _).
  split; [by split_and!|]. split_and!.
  - exact Hresp.
  - fold d. by rewrite Hresp, Hresp'.
  - intros t Ht. by apply (proj1 (Hafter Hunique)) in Ht as [_ Hne].
Defined.



Lemma listTodos_blank_query_witness :
  let d := house in
  (" " ≠ "" ∧ strings.TrimSpace " " = "" ∧ outage (calm 8 10) 0 = false
   ∧ outage (calm 8 10) 1 = false)
  ∧ (listTodos (calm 8 10) " " (start d)).1
    = JSON http.StatusOK [("todos", ATodos [])].
Proof.
  cbv zeta.
  assert (" " ≠ "") as Hq by done.
  assert (strings.TrimSpace " " = "") as Hblank by reflexivity.
  destruct (listTodos_blank_query (calm 8 10)
              house
              " " Hq Hblank eq_refl eq_refl) as (_ & _ & Hnone & _).
  split; [by split_and!|].
  apply Hnone. by repeat constructor.
Defined.

(** With the look-up lost and the insert not, registering an email that is
    taken is answered 201 and stores a second user with the email. *)
Lemma registerUser_lookup_failure_witness :
  let d := {| users := [alice]; todos := [] |} in
  let out := registerUser (firstLost 0 1) (Some (mkUser "a@b.com" "pw2")) (start d) in
  (normalizeEmail "a@b.com" ≠ "" ∧ normalizeText "pw2" ≠ ""
   ∧ outage (firstLost 0 1) 0 = true ∧ outage (firstLost 0 1) 1 = false)
  ∧ code out.1 = http.StatusCreated
  ∧ users (db out.2) = [alice; mkUser "a@b.com" "pw2"].
Proof.
  cbv zeta.
  assert (normalizeEmail "a@b.com" ≠ "") as HE by done.
  assert (normalizeText "pw2" ≠ "") as HP by done.
  destruct (registerUser_lookup_failure (firstLost 0 1)
              {| users := [alice]; todos := [] |} "a@b.com" "pw2")
    as (_ & Hvalid & Hlost).
  destruct (Hvalid HE HP) as (_ & Hinsert).
  destruct (Hinsert ErrConnection (Hlost eq_refl)) as (_ & Hresp & Husers).
  split; [by split_and!|]. split.
  - by rewrite Hresp.
  - by rewrite (Husers eq_refl).
Defined.

(** Register, log in with the email in capitals and padded, create a
    to-do with a padded title, complete it, delete it, list: the
    responses are 201, 200, 201 with the trimmed title, 200 with
    [completed] set, the title kept and the time as the store has it,
    200 and the empty list. *)
Example scenario :
  let r1 := serve (calm 1 100) (POST_register (Some (mkUser "u@x.com" "pw1")))
              emptyDatabase in
  let r2 := serve (calm 2 101) (POST_login (Some (mkUser "U@X.COM " " pw1")))
              (db r1.2) in
  let r3 := serve (calm 3000042 102)
              (POST_todos (Some (mkCreateInput "u@x.com" " wash car "))) (db r2.2) in
  let id := primitive.Hex 102%N in
  let r4 := serve (calm 4 103)
              (PUT_todos_id id (Some (mkUpdateInput None (Some true)))) (db r3.2) in
  let r5 := serve (calm 5 104) (DELETE_todos_id id) (db r4.2) in
  let r6 := serve (calm 6 105) (GET_todos "u@x.com") (db r5.2) in
  code r1.1 = http.StatusCreated
  ∧ code r2.1 = http.StatusOK
  ∧ r3.1 = JSON http.StatusCreated
             [("todo", ATodo (mkTodoResponse id "u@x.com" "wash car" false 3000042))]
  ∧ r4.1 = JSON http.StatusOK
             [("todo", ATodo (mkTodoResponse id "u@x.com" "wash car" true 3000000))]
  ∧ code r5.1 = http.StatusOK
  ∧ r6.1 = JSON http.StatusOK [("todos", ATodos [])].
Proof. cbv zeta. split_and!; by vm_compute. Qed.

Lemma normalization_is_idempotent_witness :
  ASCII.isASCII "  Ana@X.com " = true
  ∧ normalizeEmail "  Ana@X.com " = "ana@x.com"
  ∧ normalizeEmail (normalizeEmail "  Ana@X.com ") = normalizeEmail "  Ana@X.com ".
Proof.
  split; [reflexivity|]. split; [reflexivity|].
  exact (proj1 (normalization_is_idempotent "  Ana@X.com " eq_refl)).
Defined.

Lemma normalizeEmail_ignores_case_and_padding_witness :
  (ASCII.allSpace "  " = true ∧ ASCII.allSpace " " = true
   ∧ ASCII.isASCII "Ana@X.com" = true ∧ ASCII.isASCII "ana@x.COM" = true
   ∧ strings.ToLower "Ana@X.com" = strings.ToLower "ana@x.COM")
  ∧ normalizeEmail "  Ana@X.com " = normalizeEmail "ana@x.COM".
Proof.
  split; [by split_and!|].
  exact (normalizeEmail_ignores_case_and_padding "  " " " "Ana@X.com" "ana@x.COM"
           eq_refl eq_refl eq_refl eq_refl eq_refl).
Defined.

Lemma normalizeText_strips_the_ends_witness :
  ASCII.isASCII " wash car  " = true
  ∧ normalizeText " wash car  " = "wash car"
  ∧ ∃ pre post,
      " wash car  " = pre +:+ normalizeText " wash car  " +:+ post
      ∧ ASCII.allSpace pre = true ∧ ASCII.allSpace post = true.
Proof.
  split; [reflexivity|]. split; [reflexivity|].
  destruct (normalizeText_strips_the_ends " wash car  " eq_refl)
    as (pre & post & Heq & Hpre & Hpost & _).
  by exists pre, post.
Defined.

Lemma response_id_decodes_to_the_id_witness :
  ((Todo_ID (mkTodo 3 "c@d.com" "walk" false 5000000) < 2 ^ 96)%N
   ∧ (Todo_ID (mkTodo 9 "a@b.com" "buy milk" false 7000000) < 2 ^ 96)%N)
  ∧ primitive.ObjectIDFromHex
      (TodoResponse_ID (toTodoResponse (mkTodo 3 "c@d.com" "walk" false 5000000)))
    = Some 3%N.
Proof.
  assert ((3 < 2 ^ 96)%N) as H3 by reflexivity.
  assert ((9 < 2 ^ 96)%N) as H9 by reflexivity.
  split; [by split|].
  exact (proj1 (proj2 (response_id_decodes_to_the_id
                         (mkTodo 3 "c@d.com" "walk" false 5000000)
                         (mkTodo 9 "a@b.com" "buy milk" false 7000000) H3 H9))).
Defined.

Lemma create_then_delete_restores_witness :
  let env := calm 8 10 in
  let out1 := createTodo env (Some (mkCreateInput " Ana@X.com" " wash car "))
                (start house) in
  (normalizeEmail " Ana@X.com" ≠ "" ∧ normalizeText " wash car " ≠ ""
   ∧ outage env 0 = false ∧ (NewObjectID env < 2 ^ 96)%N
   ∧ ∀ t, t ∈ todos house → Todo_ID t ≠ NewObjectID env)
  ∧ ∃ created,
      out1.1 = JSON http.StatusCreated [("todo", ATodo created)]
      ∧ db (deleteTodo env (TodoResponse_ID created) (start (db out1.2))).2
        = house.
Proof.
  cbv zeta.
  assert (normalizeEmail " Ana@X.com" ≠ "") as HE by done.
  assert (normalizeText " wash car " ≠ "") as HT by done.
  assert ((NewObjectID (calm 8 10) < 2 ^ 96)%N) as Hid by reflexivity.
  assert (∀ t, t ∈ todos house → Todo_ID t ≠ NewObjectID (calm 8 10)) as Hfresh.
  { intros t Ht. unfold house, todos in Ht.
    apply elem_of_cons in Ht as [->|Ht]; [done|].
    apply list_elem_of_singleton in Ht as ->. done. }
  split; [by split_and!|].
  destruct (create_then_delete_restores (calm 8 10) (calm 8 10) house
              " Ana@X.com" " wash car " HE HT eq_refl eq_refl Hid Hfresh)
    as (created & Hcreated & _ & Hrestored).
  exists created. by split.
Defined.

Lemma update_existing_succeeds_witness :
  let t := mkTodo 9 "a@b.com" "buy milk" false 7000000 in
  let input := mkUpdateInput (Some " buy oat milk ") None in
  let out := updateTodo (calm 8 10) "000000000000000000000009" (Some input)
               (start house) in
  (primitive.ObjectIDFromHex "000000000000000000000009" = Some (Todo_ID t)
   ∧ t ∈ todos house ∧ uniqueIDs house
   ∧ normalizeText <$> UpdateInput_Title input ≠ Some ""
   ∧ outage (calm 8 10) 0 = false ∧ outage (calm 8 10) 1 = false)
  ∧ out.1 = JSON http.StatusOK
              [("todo", ATodo (mkTodoResponse "000000000000000000000009"
                                 "a@b.com" "buy oat milk" false 7000000))].
Proof.
  cbv zeta.
  assert (mkTodo 9 "a@b.com" "buy milk" false 7000000 ∈ todos house) as Ht.
  { simpl. right. left. }
  assert (uniqueIDs house) as Hunique.
  { unfold uniqueIDs; simpl. apply NoDup_cons. split.
    - intros Hin. apply list_elem_of_singleton in Hin. discriminate.
    - apply NoDup_singleton. }
  assert (normalizeText <$> Some " buy oat milk " ≠ Some "") as Htitle by done.
  assert (UpdateInput_Title (mkUpdateInput (Some " buy oat milk ") None) ≠ None
          ∨ UpdateInput_Completed (mkUpdateInput (Some " buy oat milk ") None) ≠ None)
    as Hsome by (by left).
  destruct (update_existing_succeeds (calm 8 10) house "000000000000000000000009"
              (mkUpdateInput (Some " buy oat milk ") None)
              (mkTodo 9 "a@b.com" "buy milk" false 7000000)
              eq_refl Ht Hunique Htitle Hsome eq_refl eq_refl) as (Hresp & _).
  split; [by split_and!|]. exact Hresp.
Defined.

Lemma update_missing_is_an_internal_error_witness :
  let input := mkUpdateInput None (Some true) in
  let out := updateTodo (calm 8 10) "00000000000000000000000b" (Some input)
               (start house) in
  (primitive.ObjectIDFromHex "00000000000000000000000b" = Some 11%N
   ∧ (∀ t, t ∈ todos house → Todo_ID t ≠ 11%N)
   ∧ normalizeText <$> UpdateInput_Title input ≠ Some ""
   ∧ outage (calm 8 10) 0 = false)
  ∧ code out.1 = http.StatusInternalServerError
  ∧ db out.2 = house.
Proof.
  cbv zeta.
  assert (∀ t, t ∈ todos house → Todo_ID t ≠ 11%N) as Habsent.
  { intros t Ht. unfold house, todos in Ht.
    apply elem_of_cons in Ht as [->|Ht]; [done|].
    apply list_elem_of_singleton in Ht as ->. done. }
  assert (normalizeText <$> UpdateInput_Title (mkUpdateInput None (Some true))
          ≠ Some "") as Htitle by done.
  assert (UpdateInput_Title (mkUpdateInput None (Some true)) ≠ None
          ∨ UpdateInput_Completed (mkUpdateInput None (Some true)) ≠ None)
    as Hsome by (by right).
  destruct (update_missing_is_an_internal_error (calm 8 10) house
              "00000000000000000000000b" 11%N (mkUpdateInput None (Some true))
              eq_refl Habsent Htitle Hsome eq_refl) as (Hresp & _ & Hdb).
  split; [by split_and!|]. split; [by rewrite Hresp|exact Hdb].
Defined.

Lemma update_applied_though_unread_witness :
  let env := secondLost 8 10 in
  let t := mkTodo 9 "a@b.com" "buy milk" false 7000000 in
  let input := mkUpdateInput None (Some true) in
  let out := updateTodo env "000000000000000000000009" (Some input) (start house) in
  (primitive.ObjectIDFromHex "000000000000000000000009" = Some (Todo_ID t)
   ∧ t ∈ todos house ∧ uniqueIDs house
   ∧ outage env 0 = false ∧ outage env 1 = true)
  ∧ code out.1 = http.StatusInternalServerError
  ∧ mkTodo 9 "a@b.com" "buy milk" true 7000000 ∈ todos (db out.2).
Proof.
  cbv zeta.
  assert (mkTodo 9 "a@b.com" "buy milk" false 7000000 ∈ todos house) as Ht.
  { unfold house, todos. right. left. }
  assert (uniqueIDs house) as Hunique.
  { unfold uniqueIDs, house, todos. rewrite !fmap_cons. apply NoDup_cons. split.
    - intros Hin. apply list_elem_of_singleton in Hin. discriminate.
    - apply NoDup_singleton. }
  assert (normalizeText <$> UpdateInput_Title (mkUpdateInput None (Some true))
          ≠ Some "") as Htitle by done.
  assert (UpdateInput_Title (mkUpdateInput None (Some true)) ≠ None
          ∨ UpdateInput_Completed (mkUpdateInput None (Some true)) ≠ None)
    as Hsome by (by right).
  destruct (update_applied_though_unread (secondLost 8 10)
              house "000000000000000000000009" (mkUpdateInput None (Some true))
              (mkTodo 9 "a@b.com" "buy milk" false 7000000)
              eq_refl Ht Hunique Htitle Hsome eq_refl eq_refl)
    as (Hresp & Hin).
  split; [by split_and!|]. split; [by rewrite Hresp|exact Hin].
Defined.

Lemma register_then_login_witness :
  let out1 := registerUser (calm 1 100) (Some (mkUser " New@X.com" "pw9 "))
                (start house) in
  (outage (calm 1 100) 0 = false
   ∧ out1.1 = JSON http.StatusCreated
                [("message", AString "Usuario registrado con éxito")]
   ∧ normalizeEmail "NEW@x.com " = normalizeEmail " New@X.com"
   ∧ normalizeText " pw9" = normalizeText "pw9 ")
  ∧ (loginUser (calm 2 101) (Some (mkUser "NEW@x.com " " pw9"))
       (start (db out1.2))).1
    = JSON http.StatusOK [("message", AString "Login exitoso")].
Proof.
  cbv zeta.
  assert ((registerUser (calm 1 100) (Some (mkUser " New@X.com" "pw9 "))
             (start house)).1
          = JSON http.StatusCreated
              [("message", AString "Usuario registrado con éxito")]) as Hcreated
    by (vm_compute; reflexivity).
  destruct (register_then_login (calm 1 100) (calm 2 101) house
              " New@X.com" "pw9 " "NEW@x.com " " pw9" eq_refl eq_refl Hcreated
              eq_refl) as [Hok _].
  split; [by split_and!|]. exact (Hok eq_refl).
Defined.

Lemma login_reports_a_lost_lookup_as_unknown_user_witness :
  let d := {| users := [alice]; todos := [] |} in
  (normalizeEmail "a@b.com" ≠ "" ∧ normalizeText "pw1" ≠ ""
   ∧ outage (firstLost 0 1) 0 = true ∧ alice ∈ users d)
  ∧ (loginUser (firstLost 0 1) (Some (mkUser "a@b.com" "pw1")) (start d)).1
    = JSON http.StatusUnauthorized [("error", AString "Usuario no encontrado")].
Proof.
  cbv zeta.
  assert (normalizeEmail "a@b.com" ≠ "") as HE by done.
  assert (normalizeText "pw1" ≠ "") as HP by done.
  destruct (login_reports_a_lost_lookup_as_unknown_user (firstLost 0 1)
              {| users := [alice]; todos := [] |}
              (Some (mkUser "a@b.com" "pw1"))) as [_ Hlost].
  destruct (Hlost "a@b.com" "pw1" eq_refl HE HP eq_refl) as [Hresp _].
  split; [|exact Hresp]. split_and!; try done. apply list_elem_of_here.
Defined.

Lemma register_then_list_users_witness :
  let out1 := registerUser (calm 1 100) (Some (mkUser " New@X.com" "pw9 "))
                (start house) in
  (outage (calm 1 100) 0 = false ∧ outage (calm 1 100) 1 = false
   ∧ out1.1 = JSON http.StatusCreated
                [("message", AString "Usuario registrado con éxito")])
  ∧ (listUsers (calm 1 100) (start (db out1.2))).1
    = JSON http.StatusOK [("users", AUsers [alice; mkUser "new@x.com" "pw9"])].
Proof.
  cbv zeta.
  assert ((registerUser (calm 1 100) (Some (mkUser " New@X.com" "pw9 "))
             (start house)).1
          = JSON http.StatusCreated
              [("message", AString "Usuario registrado con éxito")]) as Hcreated
    by (vm_compute; reflexivity).
  split; [by split_and!|].
  exact (register_then_list_users (calm 1 100) (calm 1 100) house
           " New@X.com" "pw9 " eq_refl eq_refl eq_refl Hcreated).
Defined.

Lemma clearUsers_empties_users_only_witness :
  let out := clearUsers (calm 8 10) (start house) in
  outage (calm 8 10) 0 = false
  ∧ users (db out.2) = []
  ∧ todos (db out.2) = todos house
  ∧ (loginUser (calm 8 10) (Some (mkUser "a@b.com" "pw1")) (start (db out.2))).1
    = JSON http.StatusUnauthorized [("error", AString "Usuario no encontrado")].
Proof.
  cbv zeta.
  assert (normalizeEmail "a@b.com" ≠ "") as HE by done.
  assert (normalizeText "pw1" ≠ "") as HP by done.
  destruct (clearUsers_empties_users_only (calm 8 10) house) as [_ Hup].
  destruct (Hup eq_refl) as (_ & Husers & Htodos & Hafter).
  split_and!; [done|exact Husers|exact Htodos|].
  exact (proj1 (Hafter (calm 8 10) "a@b.com" "pw1" HE HP eq_refl)).
Defined.

Lemma listTodos_by_owner_witness :
  ("A@B.com" ≠ "" ∧ outage (calm 8 10) 0 = false ∧ outage (calm 8 10) 1 = false)
  ∧ (listTodos (calm 8 10) "A@B.com" (start house)).1
    = JSON http.StatusOK
        [("todos", ATodos [mkTodoResponse "000000000000000000000009"
                             "a@b.com" "buy milk" false 7000000])].
Proof.
  assert ("A@B.com" ≠ "") as Hq by done.
  destruct (listTodos_by_owner (calm 8 10) house "A@B.com" Hq eq_refl eq_refl)
    as (Hresp & _).
  split; [by split_and!|]. by rewrite Hresp.
Defined.

Lemma createTodo_appends_for_any_owner_witness :
  let out := createTodo (calm 8000999 10) (Some (mkCreateInput " Nobody@X.com" " x "))
               (start emptyDatabase) in
  (normalizeEmail " Nobody@X.com" ≠ "" ∧ normalizeText " x " ≠ ""
   ∧ outage (calm 8000999 10) 0 = false
   ∧ ∀ t, t ∈ todos emptyDatabase → Todo_ID t ≠ NewObjectID (calm 8000999 10))
  ∧ out.1 = JSON http.StatusCreated
              [("todo", ATodo (mkTodoResponse "00000000000000000000000a"
                                 "nobody@x.com" "x" false 8000999))]
  ∧ db out.2
    = {| users := []; todos := [mkTodo 10 "nobody@x.com" "x" false 8000000] |}.
Proof.
  cbv zeta.
  assert (normalizeEmail " Nobody@X.com" ≠ "") as HE by done.
  assert (normalizeText " x " ≠ "") as HT by done.
  assert (∀ t, t ∈ todos emptyDatabase → Todo_ID t ≠ NewObjectID (calm 8000999 10))
    as Hfresh by (intros t Ht; by apply elem_of_nil in Ht).
  destruct (createTodo_appends_for_any_owner (calm 8000999 10) emptyDatabase
              " Nobody@X.com" " x " HE HT eq_refl Hfresh)
    as (Hresp & Hdb & _).
  split; [by split_and!|]. split; [exact Hresp|exact Hdb].
Defined.

Lemma clear_then_list_is_empty_witness :
  let out1 := clearTodos (calm 8 10) "a@b.com" (start house) in
  ("a@b.com" ≠ "" ∧ "A@B.com " ≠ "" ∧ normalizeEmail "A@B.com " = "a@b.com"
   ∧ outage (calm 8 10) 0 = false ∧ outage (calm 8 10) 1 = false)
  ∧ (listTodos (calm 8 10) "A@B.com " (start (db out1.2))).1
    = JSON http.StatusOK [("todos", ATodos [])]
  ∧ mkTodo 3 "c@d.com" "walk" false 5000000 ∈ todos (db out1.2).
Proof.
  cbv zeta.
  assert ("a@b.com" ≠ "") as Howner by done.
  assert ("A@B.com " ≠ "") as Hquery by done.
  assert (normalizeEmail "A@B.com " = "a@b.com") as Hnorm by reflexivity.
  destruct (clear_then_list_is_empty (calm 8 10) (calm 8 10) house
              "a@b.com" "A@B.com " Howner Hquery Hnorm eq_refl eq_refl eq_refl)
    as [Hempty Hkept].
  split; [by split_and!|]. split; [exact Hempty|].
  apply Hkept; [|done]. unfold house, todos. left.
Defined.

Lemma refusals_leave_the_store_alone_witness :
  let out := serve (calm 8 10) (POST_login (Some (mkUser "a@b.com" "nope")))
               house in
  code out.1 = http.StatusUnauthorized
  ∧ Forall (λ c, isWrite c = false) (journal out.2)
  ∧ db out.2 = house.
Proof.
  cbv zeta.
  assert (code (serve (calm 8 10) (POST_login (Some (mkUser "a@b.com" "nope")))
                  house).1 = http.StatusUnauthorized) as Hcode
    by (vm_compute; reflexivity).
  destruct (refusals_leave_the_store_alone (calm 8 10)
              (POST_login (Some (mkUser "a@b.com" "nope"))) house) as [_ Hrefused].
  destruct (Hrefused (or_introl Hcode)) as [Hreads Hdb].
  by split_and!.
Defined.

Lemma a_request_changes_one_collection_at_most_witness :
  let out := serve (firstLost 8 10) (GET_todos "a@b.com") house in
  readOnly (GET_todos "a@b.com") = true
  ∧ db out.2 = house
  ∧ Forall (λ c, isWrite c = false) (journal out.2).
Proof.
  cbv zeta.
  destruct (a_request_changes_one_collection_at_most (firstLost 8 10)
              (GET_todos "a@b.com") house) as [Hread _].
  destruct (Hread eq_refl) as [Hdb Hreads]. by split_and!.
Defined.

Lemma stored_users_stay_valid_witness :
  Forall validUser (users emptyDatabase)
  ∧ Forall validUser
      (users (serveAll
                [(firstLost 1 100, POST_register (Some (mkUser " Ana@X.com" " pw ")));
                 (calm 2 101, POST_register (Some (mkUser "ana@x.com" "other")))]
                emptyDatabase)).
Proof.
  assert (Forall validUser (users emptyDatabase)) as Hempty by constructor.
  split; [exact Hempty|].
  exact (stored_users_stay_valid
           [(firstLost 1 100, POST_register (Some (mkUser " Ana@X.com" " pw ")));
            (calm 2 101, POST_register (Some (mkUser "ana@x.com" "other")))]
           emptyDatabase Hempty).
Defined.

Lemma stored_todos_stay_valid_witness :
  Forall validTodo (todos emptyDatabase)
  ∧ Forall validTodo
      (todos (serveAll
                [(calm 1 9, POST_todos (Some (mkCreateInput " Ana@X.com" " milk ")));
                 (secondLost 2 10,
                  PUT_todos_id "000000000000000000000009"
                    (Some (mkUpdateInput (Some " oat milk ") None)))]
                emptyDatabase)).
Proof.
  assert (Forall validTodo (todos emptyDatabase)) as Hempty by constructor.
  split; [exact Hempty|].
  exact (stored_todos_stay_valid
           [(calm 1 9, POST_todos (Some (mkCreateInput " Ana@X.com" " milk ")));
            (secondLost 2 10,
             PUT_todos_id "000000000000000000000009"
               (Some (mkUpdateInput (Some " oat milk ") None)))]
           emptyDatabase Hempty).
Defined.

Lemma todo_identity_is_never_rewritten_witness :
  let req := PUT_todos_id "000000000000000000000009"
               (Some (mkUpdateInput (Some "oat milk") (Some true))) in
  mkTodo 9 "a@b.com" "oat milk" true 7000000 ∈ todos (db (serve (calm 8 10) req house).2)
  ∧ ∃ t, t ∈ todos house ∧ Todo_ID t = 9%N ∧ Todo_Email t = "a@b.com"
         ∧ Todo_CreatedAt t = 7000000%Z.
Proof.
  cbv zeta.
  assert (mkTodo 9 "a@b.com" "oat milk" true 7000000
          ∈ todos (db (serve (calm 8 10)
                         (PUT_todos_id "000000000000000000000009"
                            (Some (mkUpdateInput (Some "oat milk") (Some true))))
                         house).2)) as Hin.
  { vm_compute. right. left. }
  split; [exact Hin|].
  destruct (todo_identity_is_never_rewritten _ _ _ _ Hin)
    as [(t & Ht & Hid & Hemail & Htime)|(body & Hreq & _)]; [|discriminate Hreq].
  exists t. by split_and!.
Defined.
